(** * Veridical sensor simulation: cueing geometry, ROI gating and material veto

    A shallow embedding of three source files of the repository,

    - [polarimetric-eo/src/sensors/roi_gating.py]            (module [RoiGating]),
    - [polarimetric-eo/src/simulations/simulate_polarimetry.py] (module [Polarimetry]),
    - [thermal-lwir/src/control/slew_to_cue.py]              (modules [SlewToCue]
                                                              and [SlewToCueBinary64]),

    together with the properties their specification states about them.

    Numbers.  Pixel coordinates and sizes are Python integers, hence [Z].
    The polarimetric classifier only adds, divides and compares the values of
    a map, so its floats are exact rationals [Q] extended by NaN (the mean of
    an empty selection); its statements are about the means the code
    computes.  The slew-to-cue geometry uses sqrt, cos, sin and arctan; module
    [SlewToCue] takes its floats as real numbers [R], which is where the
    geometric identities live, and says nothing of rounding and overflow.
    Where rounding or overflow decides what the code returns (the
    normalisation of an angle to [0, 360), the speed-up estimate), the code
    is embedded on IEEE binary64 numbers, Rocq's primitive floats, with the
    functions of the C library (arctan2, cos, sin, fmod) as parameters. *)

From Stdlib Require Import ZArith List Bool Lia.
From Stdlib Require Import QArith.
From Stdlib Require Import Reals Lra.
From Stdlib Require String.
From Stdlib Require Lqa.
From Stdlib Require Floats.
Import String.StringSyntax.
Delimit Scope string_scope with string.
Import ListNotations.

(* Decimal float literals are read as Python reads them: rounded to the
   nearest binary64 number. *)
Set Warnings "-inexact-float".

(* ================================================================== *)
(** * ROI gating ([roi_gating.py]) *)
(* ================================================================== *)

Module RoiGating.

Local Open Scope Z_scope.

(** ** numpy arrays, as far as [extract_roi] uses them *)

Section Ndarray.

(** A pixel is a scalar for an (H x W) image and a vector of channels for an
    (H x W x C) image; [extract_roi] never touches the channel axis (it
    slices it with [:] and pads it with [(0, 0)]), so one type covers both. *)
Variable A : Type.
Variable zero : A.

(** An array is its first two dimensions and its content. *)
Record ndarray := mk_ndarray {
  height : nat;
  width : nat;
  at_ : Z -> Z -> A
}.

(** [full_image.shape[:2]] *)
Definition shape2 (a : ndarray) : Z * Z :=
  (Z.of_nat (height a), Z.of_nat (width a)).

(** Python's normalisation of one bound of a slice over an axis of length
    [len]: a negative bound counts from the end, and the result is clipped
    to [0, len]. *)
Definition slice_bound (i len : Z) : Z :=
  if i <? 0 then Z.max 0 (i + len) else Z.min i len.

(** First index and number of elements of [axis[lo:hi]]. *)
Definition slice_start (lo len : Z) : Z := slice_bound lo len.

Definition slice_len (lo hi len : Z) : Z :=
  Z.max 0 (slice_bound hi len - slice_bound lo len).

(** [a[y0:y1, x0:x1]] (and [a[y0:y1, x0:x1, :]]). *)
Definition slice2 (a : ndarray) (y0 y1 x0 x1 : Z) : ndarray :=
  let h := Z.of_nat (height a) in
  let w := Z.of_nat (width a) in
  {| height := Z.to_nat (slice_len y0 y1 h);
     width := Z.to_nat (slice_len x0 x1 w);
     at_ := fun i j => at_ a (slice_start y0 h + i) (slice_start x0 w + j) |}.

(** [np.pad(a, ((top, bottom), (left, right)), mode='constant',
    constant_values=0)]; the four amounts are never negative where
    [extract_roi] calls it. *)
Definition np_pad (a : ndarray) (top bottom left right : Z) : ndarray :=
  let h := Z.of_nat (height a) in
  let w := Z.of_nat (width a) in
  {| height := Z.to_nat (top + h + bottom);
     width := Z.to_nat (left + w + right);
     at_ := fun i j =>
       if (top <=? i) && (i <? top + h) && (left <=? j) && (j <? left + w)
       then at_ a (i - top) (j - left)
       else zero |}.

(** ** The metadata dictionary returned beside the crop *)

Record roi_bounds := mk_bounds {
  b_x_min : Z; b_x_max : Z; b_y_min : Z; b_y_max : Z
}.

Record pad_amounts := mk_pads {
  pad_top : Z; pad_bottom : Z; pad_left : Z; pad_right : Z
}.

Record metadata := mk_metadata {
  md_roi_center : Z * Z;            (* (x, y) *)
  md_roi_size : Z;
  md_roi_bounds : roi_bounds;
  md_padding_applied : bool;
  md_pad_amounts : option pad_amounts   (* None when no padding *)
}.

(** ** [ROIGatingModule] *)

Record ROIGatingModule := mk_module {
  dx : Z;
  dy : Z;
  full_resolution : Z * Z;
  default_roi_size : Z
}.

Definition apply_parallax_correction (self : ROIGatingModule)
    (thermal_x thermal_y : Z) : Z * Z :=
  let polar_x := thermal_x + dx self in
  let polar_y := thermal_y + dy self in
  (polar_x, polar_y).

Definition extract_roi (self : ROIGatingModule) (full_image : ndarray)
    (roi_center_x roi_center_y : Z) (roi_size : option Z)
    : ndarray * metadata :=
  let roi_size :=
    match roi_size with None => default_roi_size self | Some s => s end in
  let half_size := roi_size / 2 in
  let '(height, width) := shape2 full_image in
  (* Calculate ROI bounds *)
  let x_min := roi_center_x - half_size in
  let x_max := roi_center_x + half_size in
  let y_min := roi_center_y - half_size in
  let y_max := roi_center_y + half_size in
  (* Boundary checking *)
  let padding_applied :=
    (x_min <? 0) || (x_max >? width) || (y_min <? 0) || (y_max >? height) in
  (* Clamp to valid image bounds *)
  let x_min_clamped := Z.max 0 x_min in
  let x_max_clamped := Z.min width x_max in
  let y_min_clamped := Z.max 0 y_min in
  let y_max_clamped := Z.min height y_max in
  (* Extract the valid portion *)
  let roi_crop :=
    slice2 full_image y_min_clamped y_max_clamped x_min_clamped x_max_clamped in
  (* Pad if necessary to maintain fixed ROI size *)
  let pads :=
    {| pad_top := Z.abs (Z.min 0 y_min);
       pad_bottom := Z.max 0 (y_max - height);
       pad_left := Z.abs (Z.min 0 x_min);
       pad_right := Z.max 0 (x_max - width) |} in
  let roi_crop :=
    if padding_applied
    then np_pad roi_crop (pad_top pads) (pad_bottom pads)
                         (pad_left pads) (pad_right pads)
    else roi_crop in
  let md :=
    {| md_roi_center := (roi_center_x, roi_center_y);
       md_roi_size := roi_size;
       md_roi_bounds := {| b_x_min := x_min_clamped; b_x_max := x_max_clamped;
                           b_y_min := y_min_clamped; b_y_max := y_max_clamped |};
       md_padding_applied := padding_applied;
       md_pad_amounts := if padding_applied then Some pads else None |} in
  (roi_crop, md).

End Ndarray.

Arguments height {A} _.
Arguments width {A} _.
Arguments at_ {A} _ _ _.
Arguments shape2 {A} _.
Arguments extract_roi {A} _ _ _ _ _ _.

(** ** Concrete runs *)

(** A 10 x 10 image of zeros, and a calibration ([extract_roi] reads only
    its [default_roi_size], 256 in the module's unit test). *)
Definition image10 : ndarray Z :=
  {| height := 10; width := 10; at_ := fun _ _ => 0 |}.

Definition gater : ROIGatingModule :=
  {| dx := 0; dy := 0; full_resolution := (2448, 2048);
     default_roi_size := 256 |}.

(** ** Errors *)

Inductive exn :=
  ValueError | AttributeError | TypeError | ZeroDivisionError | OverflowError.

Inductive result (A : Type) := Ok (a : A) | Raise (e : exn).
Arguments Ok {A} _.
Arguments Raise {A} _.

Definition bind {A B : Type} (m : result A) (k : A -> result B) : result B :=
  match m with Ok a => k a | Raise e => Raise e end.

(** ** The turret command handed to [process_thermal_cue] *)

(** A JSON value, as far as the cue uses it: null, an integer, or an object
    (a dict, as the list of its items; a key is looked up from the front). *)
#[warnings="-register-all"]
Inductive json :=
| JNull
| JInt (z : Z)
| JObject (items : list (String.string * json)).

Fixpoint lookup (key : String.string) (items : list (String.string * json))
    : option json :=
  match items with
  | [] => None
  | (k, v) :: rest => if String.eqb key k then Some v else lookup key rest
  end.

(** [d.get(key, default)]; only a dict has the method. *)
Definition get (d : json) (key : String.string) (default : json)
    : result json :=
  match d with
  | JObject items =>
      Ok match lookup key items with Some v => v | None => default end
  | _ => Raise AttributeError
  end.

(** The metadata of [extract_roi] with the two entries added by
    [process_thermal_cue]. *)
Record cue_metadata := mk_cue_metadata {
  cue_roi : metadata;
  cue_thermal : Z * Z;          (* global_coordinates: thermal_x, thermal_y *)
  cue_polarimetric : Z * Z;     (* polarimetric_x, polarimetric_y *)
  cue_boresight_offset : Z * Z  (* dx, dy *)
}.

Definition process_thermal_cue {A : Type} (zero : A) (self : ROIGatingModule)
    (full_image : ndarray A) (turret_command : json) (roi_size : option Z)
    : result (ndarray A * cue_metadata) :=
  (* Parse thermal coordinates *)
  bind (get turret_command "turret_command"%string (JObject [])) (fun tc =>
  bind (get tc "target_pixel"%string (JObject [])) (fun thermal_coords =>
  bind (get thermal_coords "u"%string JNull) (fun thermal_x =>
  bind (get thermal_coords "v"%string JNull) (fun thermal_y =>
  match thermal_x, thermal_y with
  | JNull, _ | _, JNull => Raise ValueError
  | JInt thermal_x, JInt thermal_y =>
      (* Apply parallax correction *)
      let '(polar_x, polar_y) :=
        apply_parallax_correction self thermal_x thermal_y in
      (* Extract ROI *)
      let '(roi_image, roi_metadata) :=
        extract_roi zero self full_image polar_x polar_y roi_size in
      (* Augment metadata with coordinate mapping *)
      Ok (roi_image,
          {| cue_roi := roi_metadata;
             cue_thermal := (thermal_x, thermal_y);
             cue_polarimetric := (polar_x, polar_y);
             cue_boresight_offset := (dx self, dy self) |})
  | _, _ => Raise TypeError   (* a dict cannot be added to an offset *)
  end)))).

(** The command [{"turret_command": {"target_pixel": {"u": u, "v": v}}}]. *)
Definition cue_at (u v : Z) : json :=
  JObject [("turret_command"%string,
            JObject [("target_pixel"%string,
                      JObject [("u"%string, JInt u); ("v"%string, JInt v)])])].

(** ** [PerformanceBenchmark] *)

(** The benchmark divides pixel counts, and compares the quotient of two
    quotients with 10: its floats are binary64 numbers. *)

Import PrimFloat.

(** An [int] where a float is expected: the nearest binary64 number, exact
    below 2^53; OverflowError from 2^1024 on. *)
Definition float_of_int (n : Z) : result float :=
  let x := FloatOps.SF2Prim
             (SpecFloat.binary_normalize FloatOps.prec FloatOps.emax n 0 false) in
  if is_infinity x then Raise OverflowError else Ok x.

(** [a / b] on floats: a zero divisor raises. *)
Definition float_true_divide (a b : float) : result float :=
  if (b =? 0)%float then Raise ZeroDivisionError else Ok (a / b)%float.

(** [a / b] on two [int]s: a zero divisor raises.  Python rounds the exact
    quotient once; dividing the converted operands gives the same float
    whenever both are below 2^53, as pixel counts are (beyond that the two
    can differ in the last digit, and from 2^1024 on in what raises). *)
Definition int_true_divide (a b : Z) : result float :=
  if (b =? 0)%Z then Raise ZeroDivisionError
  else
    bind (float_of_int a) (fun x =>
    bind (float_of_int b) (fun y =>
    Ok (x / y)%float)).

Definition default_pixels_per_ms : float := 7890.0%float.

Definition estimate_processing_time (image_size : Z * Z) (pixels_per_ms : float)
    : result float :=
  let total_pixels := (fst image_size * snd image_size)%Z in
  bind (float_of_int total_pixels) (fun total =>
  float_true_divide total pixels_per_ms).

Record speedup_metrics := mk_speedup {
  full_frame_pixels : Z;
  roi_pixels : Z;
  pixel_reduction_factor : float;
  full_frame_time_ms : float;
  roi_time_ms : float;
  speedup_factor : float
}.

Definition calculate_speedup (full_resolution : Z * Z) (roi_size : Z)
    : result speedup_metrics :=
  let full_pixels := (fst full_resolution * snd full_resolution)%Z in
  let roi_pixels := (roi_size * roi_size)%Z in
  bind (int_true_divide full_pixels roi_pixels)
    (fun pixel_ratio =>
  bind (estimate_processing_time full_resolution default_pixels_per_ms)
    (fun full_time =>
  bind (estimate_processing_time (roi_size, roi_size) default_pixels_per_ms)
    (fun roi_time =>
  bind (float_true_divide full_time roi_time) (fun time_speedup =>
  Ok {| full_frame_pixels := full_pixels;
        roi_pixels := roi_pixels;
        pixel_reduction_factor := pixel_ratio;
        full_frame_time_ms := full_time;
        roi_time_ms := roi_time;
        speedup_factor := time_speedup |})))).

(** The check of the module's unit test: [speedup_factor >= 10.0]. *)
Definition meets_10x (m : speedup_metrics) : bool :=
  (10.0 <=? speedup_factor m)%float.

End RoiGating.

(* ================================================================== *)
(** * Material classifier ([simulate_polarimetry.py]) *)
(* ================================================================== *)

Module Polarimetry.

Local Open Scope Q_scope.

(** ** Floats, errors *)

(** A float of the classifier: a number, or NaN ([np.mean] of an empty
    selection).  Every comparison with NaN is false. *)
Inductive fnum := FNum (q : Q) | FNaN.

Definition Qlt_bool (x y : Q) : bool := negb (Qle_bool y x).

Definition flt (a b : fnum) : bool :=
  match a, b with FNum x, FNum y => Qlt_bool x y | _, _ => false end.

Definition fle (a b : fnum) : bool :=
  match a, b with FNum x, FNum y => Qle_bool x y | _, _ => false end.

Definition fgt (a b : fnum) : bool := flt b a.
Definition fge (a b : fnum) : bool := fle b a.

Definition fmul (a b : fnum) : fnum :=
  match a, b with FNum x, FNum y => FNum (x * y) | _, _ => FNaN end.

Inductive exn := IndexError | ZeroDivisionError.

Inductive result (A : Type) := Ok (a : A) | Raise (e : exn).
Arguments Ok {A} _.
Arguments Raise {A} _.

Definition bind {A B : Type} (m : result A) (k : A -> result B) : result B :=
  match m with Ok a => k a | Raise e => Raise e end.

Notation "x <- m ;; k" := (bind m (fun x => k))
  (at level 61, m at next level, right associativity).

(** [a / b].  A zero divisor is reported as [ZeroDivisionError], so that a
    division the code did not guard shows in the result of the function. *)
Definition true_divide (a b : fnum) : result fnum :=
  match b with
  | FNaN => Ok FNaN
  | FNum y =>
      if Qeq_bool y 0 then Raise ZeroDivisionError
      else match a with FNum x => Ok (FNum (x / y)) | FNaN => Ok FNaN end
  end.

(** ** Arrays and masks *)

(** A 2-D array is the list of its rows.  [a[mask]] needs a mask of the
    shape of [a] (IndexError otherwise) and returns the selected values in
    row-major order. *)
Fixpoint select_row (xs : list Q) (ms : list bool) : result (list Q) :=
  match xs, ms with
  | [], [] => Ok []
  | x :: xs', m :: ms' =>
      r <- select_row xs' ms' ;; Ok (if m then x :: r else r)
  | _, _ => Raise IndexError
  end.

Fixpoint masked_select (a : list (list Q)) (mask : list (list bool))
    : result (list Q) :=
  match a, mask with
  | [], [] => Ok []
  | row :: a', mrow :: mask' =>
      r1 <- select_row row mrow ;;
      r2 <- masked_select a' mask' ;;
      Ok (r1 ++ r2)
  | _, _ => Raise IndexError
  end.

Definition same_shape (a : list (list Q)) (mask : list (list bool)) : Prop :=
  map (@length Q) a = map (@length bool) mask.

Definition Qsum (l : list Q) : Q := fold_right Qplus 0 l.

(** [np.mean] of a 1-D selection. *)
Definition np_mean (l : list Q) : fnum :=
  match l with
  | [] => FNaN
  | _ => FNum (Qsum l / inject_Z (Z.of_nat (length l)))
  end.

(** ** [PolarimetrySimulator] *)

Inductive material := DRONE | BIRD | UNKNOWN.
Inductive confidence_level := HIGH | MEDIUM | LOW.
Inductive veto :=
  CONFIRM | REJECT | REQUIRE_FUSION | INSUFFICIENT_CONTRAST.

Record metrics_t := mk_metrics {
  dolp_target_pct : fnum;
  dolp_background_pct : fnum;
  contrast_ratio : fnum
}.

Record classification_result := mk_result {
  classification : material;
  confidence : confidence_level;
  veto_decision : veto;
  metrics : metrics_t
}.

Record PolarimetrySimulator := mk_simulator {
  DRONE_DOLP_HIGH : Q;
  DRONE_DOLP_MED : Q;
  AMBIGUOUS_DOLP : Q;
  BIRD_DOLP_MED : Q;
  BIRD_DOLP_LOW : Q;
  MIN_CONTRAST_RATIO : Q;
  OPTIMAL_CONTRAST_RATIO : Q
}.

(** The thresholds set by [__init__]. *)
Definition simulator : PolarimetrySimulator :=
  {| DRONE_DOLP_HIGH := 10 # 100;
     DRONE_DOLP_MED := 8 # 100;
     AMBIGUOUS_DOLP := 5 # 100;
     BIRD_DOLP_MED := 3 # 100;
     BIRD_DOLP_LOW := 1 # 100;
     MIN_CONTRAST_RATIO := 2;
     OPTIMAL_CONTRAST_RATIO := 3 |}.

(** [target_dolp_mean / background_dolp_mean if background_dolp_mean > 0
    else 0] *)
Definition contrast_of (target_dolp_mean background_dolp_mean : fnum)
    : result fnum :=
  if fgt background_dolp_mean (FNum 0)
  then true_divide target_dolp_mean background_dolp_mean
  else Ok (FNum 0).

(** The decision tree (the initial UNKNOWN / LOW / REQUIRE_FUSION is
    overwritten on every branch). *)
Definition decision_tree (self : PolarimetrySimulator)
    (contrast_ratio target_dolp_mean : fnum)
    : material * confidence_level * veto :=
  if flt contrast_ratio (FNum (MIN_CONTRAST_RATIO self)) then
    (UNKNOWN, LOW, INSUFFICIENT_CONTRAST)
  else if fgt target_dolp_mean (FNum (DRONE_DOLP_HIGH self)) then
    (DRONE, HIGH, CONFIRM)
  else if fge target_dolp_mean (FNum (DRONE_DOLP_MED self)) then
    (DRONE, MEDIUM, CONFIRM)
  else if fge target_dolp_mean (FNum (AMBIGUOUS_DOLP self)) then
    (UNKNOWN, LOW, REQUIRE_FUSION)
  else if fge target_dolp_mean (FNum (BIRD_DOLP_MED self)) then
    (BIRD, MEDIUM, REJECT)
  else
    (BIRD, HIGH, REJECT).

Definition classify_target (self : PolarimetrySimulator)
    (dolp_map : list (list Q)) (target_mask background_mask : list (list bool))
    : result classification_result :=
  (* Calculate mean DoLP values *)
  vt <- masked_select dolp_map target_mask ;;
  let target_dolp_mean := np_mean vt in
  vb <- masked_select dolp_map background_mask ;;
  let background_dolp_mean := np_mean vb in
  c <- contrast_of target_dolp_mean background_dolp_mean ;;
  (* Apply decision tree *)
  let '(cls, conf, v) := decision_tree self c target_dolp_mean in
  Ok {| classification := cls;
        confidence := conf;
        veto_decision := v;
        metrics :=
          {| dolp_target_pct := fmul target_dolp_mean (FNum 100);
             dolp_background_pct := fmul background_dolp_mean (FNum 100);
             contrast_ratio := c |} |}.

(** The (classification, confidence, veto_decision) of a result. *)
Definition verdict (r : classification_result)
    : material * confidence_level * veto :=
  (classification r, confidence r, veto_decision r).

(** The six verdicts of the decision tree, in branch order. *)
Definition six_verdicts : list (material * confidence_level * veto) :=
  [ (UNKNOWN, LOW, INSUFFICIENT_CONTRAST);
    (DRONE, HIGH, CONFIRM);
    (DRONE, MEDIUM, CONFIRM);
    (UNKNOWN, LOW, REQUIRE_FUSION);
    (BIRD, MEDIUM, REJECT);
    (BIRD, HIGH, REJECT) ].

(** A one-row scene: the first pixel is the target, the second the
    background. *)
Definition scene (target background : Q) : list (list Q) :=
  [[target; background]].
Definition target_px : list (list bool) := [[true; false]].
Definition background_px : list (list bool) := [[false; true]].

End Polarimetry.

(* ================================================================== *)
(** * Slew-to-cue control ([slew_to_cue.py]) *)
(* ================================================================== *)

Module SlewToCue.

Local Open Scope R_scope.

(** ** numpy and Python arithmetic on reals *)

Definition np_radians (x : R) : R := x * (PI / 180).
Definition np_degrees (x : R) : R := x * (180 / PI).

(** [np.arctan2(y, x)]: the angle of the point (x, y), in (-pi, pi], and 0
    at the origin. *)
Definition np_arctan2 (y x : R) : R :=
  match total_order_T 0 x with
  | inleft (left _) => atan (y / x)
  | inleft (right _) =>
      match total_order_T 0 y with
      | inleft (left _) => PI / 2
      | inleft (right _) => 0
      | inright _ => - (PI / 2)
      end
  | inright _ =>
      if Rle_dec 0 y then atan (y / x) + PI else atan (y / x) - PI
  end.

(** [np.clip(x, lo, hi)] *)
Definition np_clip (x lo hi : R) : R := Rmin (Rmax x lo) hi.

(** [x % m] on floats: [x - m * floor(x / m)]. *)
Definition py_mod (x m : R) : R := x - m * IZR (Int_part (x / m)).

(** [np.linspace(start, stop, num)] *)
Definition np_linspace (start stop : R) (num : nat) : list R :=
  map (fun i => start + INR i * ((stop - start) / INR (num - 1))) (seq 0 num).

(** ** Division of scalars, with its failure modes *)

(** A finite float argument together with its dynamic type: Python's
    division raises on a zero divisor, numpy's returns an infinity or NaN
    (with a warning).  [np.sqrt], [np.degrees] and the like return numpy
    scalars. *)
Inductive scalar := PyFloat (v : R) | NpFloat64 (v : R).

Definition value (s : scalar) : R :=
  match s with PyFloat v => v | NpFloat64 v => v end.


Inductive xfloat := Finite (v : R) | PosInf | NegInf | NaN.

Inductive outcome := Returns (x : xfloat) | RaisesZeroDivisionError.

Definition true_divide (a b : scalar) : outcome :=
  if Req_dec_T (value b) 0 then
    match a, b with
    | PyFloat _, PyFloat _ => RaisesZeroDivisionError
    | _, _ =>
        Returns match total_order_T 0 (value a) with
                | inleft (left _) => PosInf
                | inleft (right _) => NaN
                | inright _ => NegInf
                end
    end
  else Returns (Finite (value a / value b)).

Definition x_arctan (q : xfloat) : xfloat :=
  match q with
  | Finite v => Finite (atan v)
  | PosInf => Finite (PI / 2)
  | NegInf => Finite (- (PI / 2))
  | NaN => NaN
  end.

Definition x_degrees (q : xfloat) : xfloat :=
  match q with
  | Finite v => Finite (np_degrees v)
  | other => other
  end.

(** ** [SlewToCueController] *)

Record SlewToCueController := mk_controller {
  turret_lat : R;
  turret_lon : R;
  turret_alt_m : R;
  fov_deg : R;
  R_EARTH : R;
  search_step_deg : R;
  max_search_radius_deg : R
}.

(** [__init__] *)
Definition init (turret_lat turret_lon turret_alt_m fov_deg : R)
    : SlewToCueController :=
  {| turret_lat := turret_lat;
     turret_lon := turret_lon;
     turret_alt_m := turret_alt_m;
     fov_deg := fov_deg;
     R_EARTH := 6378137;
     search_step_deg := 1 / 2;
     max_search_radius_deg := 3 |}.

Definition geodetic_to_enu (self : SlewToCueController)
    (target_lat target_lon target_alt_m : R) : R * R * R :=
  let lat1 := np_radians (turret_lat self) in
  let lon1 := np_radians (turret_lon self) in
  let lat2 := np_radians target_lat in
  let lon2 := np_radians target_lon in
  (* East displacement *)
  let d_lon := lon2 - lon1 in
  let east_m := R_EARTH self * cos lat1 * d_lon in
  (* North displacement *)
  let d_lat := lat2 - lat1 in
  let north_m := R_EARTH self * d_lat in
  (* Up displacement *)
  let up_m := target_alt_m - turret_alt_m self in
  (east_m, north_m, up_m).

Definition enu_to_aer (self : SlewToCueController)
    (east_m north_m up_m : R) : R * R * R :=
  (* Range (slant distance) *)
  let range_m := sqrt (east_m ^ 2 + north_m ^ 2 + up_m ^ 2) in
  (* Azimuth (clockwise from North) *)
  let azimuth_rad := np_arctan2 east_m north_m in
  let azimuth_deg := np_degrees azimuth_rad in
  (* Normalize to [0, 360) *)
  let azimuth_deg :=
    if Rlt_dec azimuth_deg 0 then azimuth_deg + 360 else azimuth_deg in
  (* Elevation (angle above horizon) *)
  let horizontal_range := sqrt (east_m ^ 2 + north_m ^ 2) in
  let elevation_rad := np_arctan2 up_m horizontal_range in
  let elevation_deg := np_degrees elevation_rad in
  (azimuth_deg, elevation_deg, range_m).

Definition geodetic_to_aer (self : SlewToCueController)
    (target_lat target_lon target_alt_m : R) : R * R * R :=
  let '(east_m, north_m, up_m) :=
    geodetic_to_enu self target_lat target_lon target_alt_m in
  let '(azimuth_deg, elevation_deg, range_m) :=
    enu_to_aer self east_m north_m up_m in
  (azimuth_deg, elevation_deg, range_m).

Definition aer_to_turret_command (self : SlewToCueController)
    (azimuth_deg elevation_deg : R) : R * R :=
  let pan_deg := azimuth_deg in
  let tilt_deg := elevation_deg in
  (pan_deg, tilt_deg).

(** The default of [range_uncertainty_m]. *)
Definition default_range_uncertainty_m : scalar := PyFloat 10.

Definition calculate_angular_uncertainty (self : SlewToCueController)
    (range_m range_uncertainty_m : scalar) : outcome :=
  match true_divide range_uncertainty_m range_m with
  | RaisesZeroDivisionError => RaisesZeroDivisionError
  | Returns q =>
      let angular_uncertainty_rad := x_arctan q in
      let angular_uncertainty_deg := x_degrees angular_uncertainty_rad in
      Returns angular_uncertainty_deg
  end.

(** The defaults of [search_radius_deg] and [num_points]. *)
Definition default_search_radius_deg : R := 2.
Definition default_num_points : nat := 20.

(** The arrays [theta] and [r] of the spiral. *)
Definition spiral_theta (num_points : nat) : list R :=
  np_linspace 0 (4 * PI) num_points.

Definition spiral_r (search_radius_deg : R) (num_points : nat) : list R :=
  map (fun th => search_radius_deg * th / (4 * PI)) (spiral_theta num_points).

(** One turn of the loop: the point appended for [r[i]] and [theta[i]]. *)
Definition spiral_point (center_pan_deg center_tilt_deg r_i theta_i : R)
    : R * R :=
  (* Convert polar to Cartesian offset *)
  let d_pan := r_i * cos theta_i in
  let d_tilt := r_i * sin theta_i in
  (* Add offset to center *)
  let pan := center_pan_deg + d_pan in
  let tilt := center_tilt_deg + d_tilt in
  (* Clamp tilt to valid range [-90, 90] *)
  let tilt := np_clip tilt (-90) 90 in
  (* Wrap pan to [0, 360) *)
  let pan := py_mod pan 360 in
  (pan, tilt).

Definition generate_spiral_search_pattern (self : SlewToCueController)
    (center_pan_deg center_tilt_deg search_radius_deg : R)
    (num_points : nat) : list (R * R) :=
  let theta := spiral_theta num_points in
  let r := spiral_r search_radius_deg num_points in
  (center_pan_deg, center_tilt_deg)
    :: map (fun '(r_i, theta_i) =>
              spiral_point center_pan_deg center_tilt_deg r_i theta_i)
           (combine r theta).

(** ** From a radar track to a turret command *)

(** A float that is finite or NaN: what [np.clip] can return. *)
Inductive nfloat := Num (v : R) | NotNum.

(** [q *= 2.0] *)
Definition x_double (q : xfloat) : xfloat :=
  match q with Finite v => Finite (v * 2) | other => other end.

(** [np.clip(q, lo, hi)] on a float that may be infinite or NaN. *)
Definition x_clip (q : xfloat) (lo hi : R) : nfloat :=
  match q with
  | Finite v => Num (np_clip v lo hi)
  | PosInf => Num (np_clip hi lo hi)
  | NegInf => Num (np_clip lo lo hi)
  | NaN => NotNum
  end.

(** [generate_spiral_search_pattern] called with a radius that may be NaN.
    With a NaN radius every [r[i]] is NaN, hence every offset, every [pan %
    360] and every clipped tilt: the centre is followed by [num_points]
    points (NaN, NaN). *)
Definition spiral_of (self : SlewToCueController)
    (center_pan_deg center_tilt_deg : R) (search_radius_deg : nfloat)
    (num_points : nat) : list (nfloat * nfloat) :=
  match search_radius_deg with
  | Num radius =>
      map (fun p => (Num (fst p), Num (snd p)))
          (generate_spiral_search_pattern self center_pan_deg center_tilt_deg
             radius num_points)
  | NotNum =>
      (Num center_pan_deg, Num center_tilt_deg)
        :: repeat (NotNum, NotNum) num_points
  end.

(** The [radar_track] dictionary: each key is present or not.  The values
    are numbers read from JSON; [uncertainty_m] keeps its dynamic type for
    the division. *)
Record radar_track := mk_track {
  trk_target_id : option String.string;
  trk_latitude : option R;
  trk_longitude : option R;
  trk_altitude_m : option R;
  trk_uncertainty_m : option scalar
}.

Record turret_command := mk_command {
  cmd_timestamp : String.string;
  cmd_target_id : String.string;
  cmd_pan_deg : R;
  cmd_tilt_deg : R;
  cmd_search_radius_deg : nfloat;
  cmd_search_pattern : list (nfloat * nfloat);
  cmd_radar_azimuth_deg : R;
  cmd_radar_elevation_deg : R;
  cmd_radar_range_m : R;
  cmd_slew_to_cue_active : bool
}.

Inductive command_result :=
| Command (c : turret_command)
| RaisesKeyError (key : String.string)
| RaisesZeroDivision.

(** [now] is [datetime.now().isoformat()], read from the clock by the
    caller of the model.  The range handed to
    [calculate_angular_uncertainty] comes out of [np.sqrt]: it is a numpy
    float64. *)
Definition radar_track_to_turret_command (self : SlewToCueController)
    (now : String.string) (track : radar_track) : command_result :=
  (* Extract radar track data *)
  match trk_latitude track with
  | None => RaisesKeyError "latitude"%string
  | Some target_lat =>
  match trk_longitude track with
  | None => RaisesKeyError "longitude"%string
  | Some target_lon =>
  match trk_altitude_m track with
  | None => RaisesKeyError "altitude_m"%string
  | Some target_alt =>
  let uncertainty_m :=
    match trk_uncertainty_m track with Some u => u | None => PyFloat 10 end in
  (* Convert geodetic to AER *)
  let '(azimuth_deg, elevation_deg, range_m) :=
    geodetic_to_aer self target_lat target_lon target_alt in
  (* Convert AER to turret command *)
  let '(pan_deg, tilt_deg) :=
    aer_to_turret_command self azimuth_deg elevation_deg in
  (* Calculate search radius from radar uncertainty *)
  match calculate_angular_uncertainty self (NpFloat64 range_m) uncertainty_m with
  | RaisesZeroDivisionError => RaisesZeroDivision
  | Returns search_radius_deg =>
  (* Add safety margin (2x) *)
  let search_radius_deg := x_double search_radius_deg in
  (* Clamp to reasonable limits *)
  let search_radius_deg :=
    x_clip search_radius_deg (1 / 2) (max_search_radius_deg self) in
  (* Generate spiral search pattern *)
  let search_pattern :=
    spiral_of self pan_deg tilt_deg search_radius_deg default_num_points in
  Command
    {| cmd_timestamp := String.append now "Z"%string;
       cmd_target_id :=
         match trk_target_id track with
         | Some id => id
         | None => "UNKNOWN"%string
         end;
       cmd_pan_deg := pan_deg;
       cmd_tilt_deg := tilt_deg;
       cmd_search_radius_deg := search_radius_deg;
       cmd_search_pattern := search_pattern;
       cmd_radar_azimuth_deg := azimuth_deg;
       cmd_radar_elevation_deg := elevation_deg;
       cmd_radar_range_m := range_m;
       cmd_slew_to_cue_active := true |}
  end end end end.

(** A complete track without the optional keys. *)
Definition track_at (lat lon alt : R) : radar_track :=
  {| trk_target_id := None;
     trk_latitude := Some lat;
     trk_longitude := Some lon;
     trk_altitude_m := Some alt;
     trk_uncertainty_m := None |}.

(** A pair of floats that are numbers within the turret's ranges, both
    closed: 0 <= pan <= 360 and -90 <= tilt <= 90. *)
Definition within_turret_ranges (p : nfloat * nfloat) : Prop :=
  match p with
  | (Num pan, Num tilt) => 0 <= pan <= 360 /\ -90 <= tilt <= 90
  | _ => False
  end.

(** ** Auxiliary definitions for the statements *)

(** The value [np.linspace] gives [theta[i]] when [num_points] samples are
    asked for. *)
Definition theta_at (num_points i : nat) : R :=
  0 + INR i * ((4 * PI - 0) / INR (num_points - 1)).

(** A controller to run the code on; the functions studied below read none
    of its fields but [R_EARTH] and the turret position. *)
Definition turret : SlewToCueController := init 0 0 0 50.

End SlewToCue.

(* ================================================================== *)
(** * Slew-to-cue geometry on binary64 floats ([slew_to_cue.py]) *)
(* ================================================================== *)

(** The two methods that bring an angle into [0, 360), embedded on IEEE
    binary64 numbers.  Arithmetic, comparisons and the square root are those
    of the machine; [np.arctan2], [np.cos], [np.sin] and the C function
    [fmod] behind [%] are parameters.  Neither method reads [self]. *)

Module SlewToCueBinary64.

Import PrimFloat.
Local Open Scope float_scope.

(** ** numpy and Python arithmetic on floats *)

(** [np.pi] *)
Definition np_pi : float := 3.141592653589793.

(** [np.degrees(x)]: [x] times 180 / pi. *)
Definition np_degrees (x : float) : float := x * (180.0 / np_pi).

(** The only exception of this arithmetic. *)
Inductive exn := OverflowError.

Inductive result (A : Type) := Ok (a : A) | Raise (e : exn).
Arguments Ok {A} _.
Arguments Raise {A} _.

Definition bind {A B : Type} (m : result A) (k : A -> result B) : result B :=
  match m with Ok a => k a | Raise e => Raise e end.

Notation "x <- m ;; k" := (bind m (fun x => k))
  (at level 61, m at next level, right associativity).

(** A float argument with its dynamic type: a Python [float] or a numpy
    [float64]. *)
Inductive scalar := PyFloat (v : float) | NpFloat64 (v : float).

Definition value (s : scalar) : float :=
  match s with PyFloat v => v | NpFloat64 v => v end.

(** [x ** 2].  On a Python float a finite base whose square is out of range
    raises OverflowError; numpy returns the infinity (with a warning).  The
    square is taken as the rounded product. *)
Definition square (x : scalar) : result scalar :=
  match x with
  | PyFloat v =>
      let p := v * v in
      if is_infinity p && negb (is_infinity v) then Raise OverflowError
      else Ok (PyFloat p)
  | NpFloat64 v => Ok (NpFloat64 (v * v))
  end.

(** [a + b]: a Python float only when both operands are. *)
Definition plus (a b : scalar) : scalar :=
  match a, b with
  | PyFloat x, PyFloat y => PyFloat (x + y)
  | _, _ => NpFloat64 (value a + value b)
  end.

(** [np.clip(x, lo, hi)] on a float64: [min(max(x, lo), hi)], a NaN being
    handed through. *)
Definition np_clip (x lo hi : float) : float :=
  let t := if is_nan x then x else if lo <? x then x else lo in
  if is_nan t then t else if t <? hi then t else hi.

(** The float of a small natural number ([np.arange]). *)
Fixpoint of_nat (n : nat) : float :=
  match n with
  | O => 0.0
  | S k => of_nat k + 1.0
  end.

(** [y[-1] = v] *)
Definition set_last (y : list float) (v : float) : list float :=
  removelast y ++ [v].

(** [np.linspace(start, stop, num)]: the indices times the step, shifted
    by [start], the last sample being set to [stop]. *)
Definition np_linspace (start stop : float) (num : nat) : list float :=
  let div := (num - 1)%nat in
  let delta := stop - start in
  let y := map of_nat (seq 0 num) in
  let y :=
    if (0 <? div)%nat then
      let step := delta / of_nat div in
      if step =? 0.0 then map (fun v => v / of_nat div * delta) y
      else map (fun v => v * step) y
    else map (fun v => v * delta) y in
  let y := map (fun v => v + start) y in
  if (1 <? num)%nat then set_last y stop else y.

Section Libm.

Variable np_arctan2 : float -> float -> float.
Variables np_cos np_sin : float -> float.
Variable fmod : float -> float -> float.

(** [a % b] on a float64: the result of [fmod], moved by [b] when its sign
    is not the sign of [b]. *)
Definition np_remainder (a b : float) : float :=
  let mod_ := fmod a b in
  if b =? 0.0 then mod_
  else if mod_ =? 0.0 then (if b <? 0.0 then -0.0 else 0.0)
  else if xorb (b <? 0.0) (mod_ <? 0.0) then mod_ + b
  else mod_.

(** ** [enu_to_aer] *)

Definition enu_to_aer (east_m north_m up_m : scalar)
    : result (float * float * float) :=
  (* Range (slant distance) *)
  east2 <- square east_m ;;
  north2 <- square north_m ;;
  up2 <- square up_m ;;
  let range_m := sqrt (value (plus (plus east2 north2) up2)) in
  (* Azimuth (clockwise from North) *)
  let azimuth_rad := np_arctan2 (value east_m) (value north_m) in
  let azimuth_deg := np_degrees azimuth_rad in
  (* Normalize to [0, 360) *)
  let azimuth_deg :=
    if azimuth_deg <? 0.0 then azimuth_deg + 360.0 else azimuth_deg in
  (* Elevation (angle above horizon) *)
  let horizontal_range := sqrt (value (plus east2 north2)) in
  let elevation_rad := np_arctan2 (value up_m) horizontal_range in
  let elevation_deg := np_degrees elevation_rad in
  Ok (azimuth_deg, elevation_deg, range_m).

(** ** [generate_spiral_search_pattern] *)

Definition generate_spiral_search_pattern
    (center_pan_deg center_tilt_deg search_radius_deg : float)
    (num_points : nat) : list (float * float) :=
  (* Archimedean spiral: r = a * theta *)
  let theta := np_linspace 0.0 (4.0 * np_pi) num_points in
  let r := map (fun th => search_radius_deg * th / (4.0 * np_pi)) theta in
  (center_pan_deg, center_tilt_deg)
    :: map (fun '(r_i, theta_i) =>
              (* Convert polar to Cartesian offset *)
              let d_pan := r_i * np_cos theta_i in
              let d_tilt := r_i * np_sin theta_i in
              (* Add offset to center *)
              let pan := center_pan_deg + d_pan in
              let tilt := center_tilt_deg + d_tilt in
              (* Clamp tilt to valid range [-90, 90] *)
              let tilt := np_clip tilt (-90.0) 90.0 in
              (* Wrap pan to [0, 360) *)
              let pan := np_remainder pan 360.0 in
              (pan, tilt))
           (combine r theta).

End Libm.

(** ** Stand-ins for the library functions *)

(** Functions that agree with [np.arctan2], [np.cos], [np.sin] and [fmod]
    at the arguments used below: arctan2(-1e-20, 1.0) is -1e-20, cos(0.0) is
    1.0, sin(0.0) is 0.0 and fmod(-1e-20, 360.0) is -1e-20. *)
Definition arctan2_near_zero (y x : float) : float := y / x.
Definition cos_at_zero (x : float) : float := 1.0.
Definition sin_at_zero (x : float) : float := x.
Definition fmod_below_modulus (a b : float) : float := a.

End SlewToCueBinary64.

(* ================================================================== *)
(** * Thermal-to-polarimetric fusion ([thermal_to_polarimetric.py]) *)
(* ================================================================== *)

Module Fusion.

Local Open Scope Z_scope.

(** ** Errors *)

Inductive exn :=
| ValueError
| KeyError (key : String.string)
| IndexError
| ZeroDivisionError.

Inductive result (A : Type) := Ok (a : A) | Raise (e : exn).
Arguments Ok {A} _.
Arguments Raise {A} _.

Definition bind {A B : Type} (m : result A) (k : A -> result B) : result B :=
  match m with Ok a => k a | Raise e => Raise e end.

(** The errors of [classify_target], seen from the pipeline. *)
Definition of_classifier {A : Type} (m : Polarimetry.result A) : result A :=
  match m with
  | Polarimetry.Ok a => Ok a
  | Polarimetry.Raise Polarimetry.IndexError => Raise IndexError
  | Polarimetry.Raise Polarimetry.ZeroDivisionError => Raise ZeroDivisionError
  end.

(** ** Arrays between the two modules *)

(** The rows of a 2-D array. *)
Definition rows_of {A : Type} (a : RoiGating.ndarray A) : list (list A) :=
  map (fun i =>
         map (fun j => RoiGating.at_ a (Z.of_nat i) (Z.of_nat j))
             (seq 0 (RoiGating.width a)))
      (seq 0 (RoiGating.height a)).

Definition same_shape2 {A B : Type}
    (a : RoiGating.ndarray A) (b : RoiGating.ndarray B) : bool :=
  Nat.eqb (RoiGating.height a) (RoiGating.height b)
  && Nat.eqb (RoiGating.width a) (RoiGating.width b).

(** [classify_target] on arrays: a boolean mask indexes an array of its own
    shape only (IndexError otherwise). *)
Definition classify_arrays (sim : Polarimetry.PolarimetrySimulator)
    (dolp_map : RoiGating.ndarray Q)
    (target_mask background_mask : RoiGating.ndarray bool)
    : result Polarimetry.classification_result :=
  if same_shape2 dolp_map target_mask && same_shape2 dolp_map background_mask
  then of_classifier
         (Polarimetry.classify_target sim (rows_of dolp_map)
            (rows_of target_mask) (rows_of background_mask))
  else Raise IndexError.

(** [~mask] *)
Definition invert (mask : RoiGating.ndarray bool) : RoiGating.ndarray bool :=
  {| RoiGating.height := RoiGating.height mask;
     RoiGating.width := RoiGating.width mask;
     RoiGating.at_ := fun i j => negb (RoiGating.at_ mask i j) |}.

(** Whether index [k] of an axis of length [len] lies in the slice
    [lo:hi]. *)
Definition in_slice (lo hi len k : Z) : bool :=
  (RoiGating.slice_start lo len <=? k)
  && (k <? RoiGating.slice_start lo len + RoiGating.slice_len lo hi len).

(** [np.zeros((roi_size, roi_size), dtype=bool)] with the square
    [center-margin:center+margin] set to True on both axes. *)
Definition center_mask (roi_size : Z) : RoiGating.ndarray bool :=
  let center := roi_size / 2 in
  let margin := 40 in
  {| RoiGating.height := Z.to_nat roi_size;
     RoiGating.width := Z.to_nat roi_size;
     RoiGating.at_ := fun i j =>
       in_slice (center - margin) (center + margin) roi_size i
       && in_slice (center - margin) (center + margin) roi_size j |}.

(** ** The records at the boundary *)

Record thermal_target := mk_target {
  tgt_target_id : option String.string;
  tgt_centroid : option (Z * Z);
  tgt_classification : option String.string
}.

Record thermal_data := mk_thermal_data {
  targets : option (list thermal_target)
}.

Inductive fusion_action :=
  TRACK_AS_DRONE | DISCARD_AS_BIOLOGICAL | DEFER_TO_RADAR.

Record fusion_decision := mk_decision {
  material_type : Polarimetry.material;
  decision_confidence : Polarimetry.confidence_level;
  decision_veto : Polarimetry.veto;
  action : fusion_action
}.

Record fusion_result := mk_fusion_result {
  fr_target_id : String.string;
  fr_thermal_centroid : Z * Z;
  fr_thermal_classification : String.string;
  fr_polarimetric_frame : Z * Z;
  fr_boresight_offset : Z * Z;
  fr_roi_extraction : RoiGating.metadata;
  fr_polarimetric_classification : Polarimetry.classification_result;
  fr_fusion_decision : fusion_decision
}.

Record ThermalPolarimetricFusion := mk_fusion {
  roi_gater : RoiGating.ROIGatingModule;
  polarimetry_sim : Polarimetry.PolarimetrySimulator
}.

Definition _get_fusion_action (classification : Polarimetry.classification_result)
    : fusion_action :=
  let veto := Polarimetry.veto_decision classification in
  match veto with
  | Polarimetry.CONFIRM => TRACK_AS_DRONE
  | Polarimetry.REJECT => DISCARD_AS_BIOLOGICAL
  | _ => DEFER_TO_RADAR   (* INSUFFICIENT_CONTRAST or REQUIRE_FUSION *)
  end.

Section Pipeline.

(** The synthetic scene drawn when no image is given: from the full
    resolution, the target type (bird or not) and the target centre, the
    DoLP map of [inject_dolp_signature] over the scene of
    [create_synthetic_scene], and the target mask.  It draws random noise;
    the pipeline is studied for every such scene. *)
Variable synthetic_scene :
  Z * Z -> bool -> Z * Z -> RoiGating.ndarray Q * RoiGating.ndarray bool.

(** ['bird' in classification.lower()] *)
Variable mentions_bird : String.string -> bool.

Definition process_thermal_detection (self : ThermalPolarimetricFusion)
    (data : thermal_data)
    (full_polarimetric_image : option (RoiGating.ndarray Q))
    (roi_size : Z) : result fusion_result :=
  (* Extract target centroid from thermal data *)
  match targets data with
  | None | Some [] => Raise ValueError
  | Some (target :: _) =>
  match tgt_centroid target with
  | None => Raise (KeyError "centroid"%string)
  | Some (thermal_u, thermal_v) =>
  match tgt_target_id target with
  | None => Raise (KeyError "target_id"%string)
  | Some target_id =>
  (* Apply parallax correction *)
  let '(polar_u, polar_v) :=
    RoiGating.apply_parallax_correction (roi_gater self) thermal_u thermal_v in
  (* Generate or use full polarimetric image *)
  let '(image, full_target_mask) :=
    match full_polarimetric_image with
    | None =>
        let is_bird :=
          match tgt_classification target with
          | Some c => mentions_bird c
          | None => false
          end in
        let '(dolp_map, target_mask_full) :=
          synthetic_scene (RoiGating.full_resolution (roi_gater self)) is_bird
            (polar_u, polar_v) in
        (dolp_map, Some target_mask_full)
    | Some image => (image, None)
    end in
  (* Extract ROI *)
  let '(roi_image, roi_metadata) :=
    RoiGating.extract_roi 0%Q (roi_gater self) image polar_u polar_v
      (Some roi_size) in
  bind
    match full_target_mask with
    | Some mask =>
        (* extract ROI from the mask too *)
        let '(roi_target_mask, _) :=
          RoiGating.extract_roi false (roi_gater self) mask polar_u polar_v
            (Some roi_size) in
        Ok (roi_target_mask, invert roi_target_mask)
    | None =>
        (* estimate from ROI center region *)
        if roi_size <? 0 then Raise ValueError
        else Ok (center_mask roi_size, invert (center_mask roi_size))
    end
    (fun masks =>
  (* Classify target using DoLP *)
  bind (classify_arrays (polarimetry_sim self) roi_image (fst masks) (snd masks))
    (fun classification =>
  (* Compile fusion result *)
  Ok {| fr_target_id := target_id;
        fr_thermal_centroid := (thermal_u, thermal_v);
        fr_thermal_classification :=
          match tgt_classification target with
          | Some c => c
          | None => "unknown"%string
          end;
        fr_polarimetric_frame := (polar_u, polar_v);
        fr_boresight_offset :=
          (RoiGating.dx (roi_gater self), RoiGating.dy (roi_gater self));
        fr_roi_extraction := roi_metadata;
        fr_polarimetric_classification := classification;
        fr_fusion_decision :=
          {| material_type := Polarimetry.classification classification;
             decision_confidence := Polarimetry.confidence classification;
             decision_veto := Polarimetry.veto_decision classification;
             action := _get_fusion_action classification |} |}))
  end end end.

End Pipeline.

(** A detection with one target at the given thermal pixel. *)
Definition detection_at (u v : Z) : thermal_data :=
  {| targets := Some [ {| tgt_target_id := Some "TGT001"%string;
                          tgt_centroid := Some (u, v);
                          tgt_classification := None |} ] |}.

(** A 4 x 4 DoLP map of constant value. *)
Definition flat_map (v : Q) : RoiGating.ndarray Q :=
  {| RoiGating.height := 4; RoiGating.width := 4;
     RoiGating.at_ := fun _ _ => v |}.

Definition pipeline : ThermalPolarimetricFusion :=
  {| roi_gater := RoiGating.gater; polarimetry_sim := Polarimetry.simulator |}.

(** A scene generator that always returns the same 4 x 4 scene, with one
    target pixel, and a classification reader that never sees a bird. *)
Definition flat_mask : RoiGating.ndarray bool :=
  {| RoiGating.height := 4; RoiGating.width := 4;
     RoiGating.at_ := fun i j => (i =? 1) && (j =? 1) |}.

Definition flat_scene (_ : Z * Z) (_ : bool) (_ : Z * Z)
    : RoiGating.ndarray Q * RoiGating.ndarray bool :=
  (flat_map (9 # 100), flat_mask).

Definition no_bird (_ : String.string) : bool := false.

End Fusion.

(* ================================================================== *)
(** * Properties of ROI gating *)
(* ================================================================== *)

Module RoiGatingFacts.

Import RoiGating.
Local Open Scope Z_scope.

Section Shape.

Variable A : Type.
Variable zero : A.

(** ** Shape of the crop *)

(** Along one axis of length [len], a window [lo, hi) that meets the axis
    ([0 <= hi] and [lo <= len]) is cut and padded back to [hi - lo]. *)
Lemma axis_restored (lo hi len : Z) :
  0 <= len -> lo <= hi -> 0 <= hi -> lo <= len ->
  Z.abs (Z.min 0 lo) + slice_len (Z.max 0 lo) (Z.min len hi) len
    + Z.max 0 (hi - len) = hi - lo.
Proof.
  intros Hlen Hord Hhi Hlo. unfold slice_len, slice_bound.
  destruct (Z.ltb_spec (Z.min len hi) 0), (Z.ltb_spec (Z.max 0 lo) 0); lia.
Qed.

(** Inside the image no padding is requested and the slice has the length
    of the window. *)
Lemma axis_inside (lo hi len : Z) :
  0 <= lo -> lo <= hi -> hi <= len ->
  slice_len (Z.max 0 lo) (Z.min len hi) len = hi - lo.
Proof.
  intros. unfold slice_len, slice_bound.
  destruct (Z.ltb_spec (Z.min len hi) 0), (Z.ltb_spec (Z.max 0 lo) 0); lia.
Qed.

(** X26.  For an even, non-negative size whose window meets the image on
    both axes, the crop is exactly [size] by [size]. *)
Lemma extract_roi_shape_even (self : ROIGatingModule) (img : ndarray A)
    (cx cy size : Z) :
  0 <= size -> size mod 2 = 0 ->
  - (size / 2) <= cx <= Z.of_nat (width img) + size / 2 ->
  - (size / 2) <= cy <= Z.of_nat (height img) + size / 2 ->
  shape2 (fst (extract_roi zero self img cx cy (Some size))) = (size, size).
Proof.
  intros Hs Hev Hx Hy.
  assert (Hsz : size = 2 * (size / 2)) by (pose proof (Z.div_mod size 2); lia).
  set (hf := size / 2) in *. assert (Hhf : 0 <= hf) by lia.
  unfold extract_roi, shape2. cbn [fst height width slice2 np_pad
    pad_top pad_bottom pad_left pad_right].
  fold hf.
  set (H := Z.of_nat (height img)). set (W := Z.of_nat (width img)).
  assert (HH : 0 <= H) by (subst H; lia).
  assert (HW : 0 <= W) by (subst W; lia).
  pose proof (axis_restored (cx - hf) (cx + hf) W) as Ax.
  pose proof (axis_restored (cy - hf) (cy + hf) H) as Ay.
  assert (Sy : 0 <= slice_len (Z.max 0 (cy - hf)) (Z.min H (cy + hf)) H)
    by (unfold slice_len; lia).
  assert (Sx : 0 <= slice_len (Z.max 0 (cx - hf)) (Z.min W (cx + hf)) W)
    by (unfold slice_len; lia).
  destruct ((cx - hf <? 0) || (cx + hf >? W) || (cy - hf <? 0) || (cy + hf >? H))
    eqn:Epad; unfold np_pad, slice2; cbn [height width]; fold H W.
  - rewrite !Z2Nat.id by lia. f_equal; lia.
  - apply orb_false_elim in Epad as [Epad E4].
    apply orb_false_elim in Epad as [Epad E3].
    apply orb_false_elim in Epad as [E1 E2].
    apply Z.ltb_ge in E1, E3.
    rewrite Z.gtb_ltb in E2, E4. apply Z.ltb_ge in E2, E4.
    rewrite !Z2Nat.id by lia.
    rewrite (axis_inside (cx - hf) (cx + hf) W) by lia.
    rewrite (axis_inside (cy - hf) (cy + hf) H) by lia.
    f_equal; lia.
Qed.

End Shape.

(** C1.  [extract_roi] does not always return a [size] by [size] crop.  On a
    10 x 10 image, a size-4 ROI centred at pixel (20, 5), to the right of
    the image, comes back 4 rows by 12 columns (the slice is empty and the
    whole of [x_max - width] is padded); a size-3 ROI centred at (5, 5),
    well inside the image, comes back 2 by 2 ([half_size = 3 // 2 = 1]); and
    a size-4 ROI centred at (-4, 5), to the left of the image, comes back 4
    by 14 (the negative [x_max_clamped] makes the slice [0:-2] keep 8
    columns, to which [pad_left = 6] is added). *)
Theorem extract_roi_shape_not_fixed :
  shape2 (fst (extract_roi 0 gater image10 20 5 (Some 4))) = (4, 12) /\
  shape2 (fst (extract_roi 0 gater image10 5 5 (Some 3))) = (2, 2) /\
  shape2 (fst (extract_roi 0 gater image10 (-4) 5 (Some 4))) = (4, 14).
Proof. repeat split; reflexivity. Qed.

Lemma extract_roi_shape_even_witness :
  shape2 (fst (extract_roi 0 gater image10 1 9 (Some 6))) = (6, 6).
Proof.
  apply (extract_roi_shape_even Z 0 gater image10 1 9 6);
    first [reflexivity | lia | (cbn; lia)].
Defined.

(* ------------------------------------------------------------------ *)
(** ** Content of the crop and metadata *)

Section Crop.

Variable A : Type.
Variable zero : A.

(** X14.  For an even size whose window meets the image, the crop holds
    the window: its pixel (i, j) is the image pixel at row
    [cy - size/2 + i] and column [cx - size/2 + j] when that position lies
    in the image, and the fill value 0 otherwise. *)
Theorem extract_roi_content (self : ROIGatingModule) (img : ndarray A)
    (cx cy size i j : Z) :
  0 <= size -> size mod 2 = 0 ->
  - (size / 2) <= cx <= Z.of_nat (width img) + size / 2 ->
  - (size / 2) <= cy <= Z.of_nat (height img) + size / 2 ->
  0 <= i < size -> 0 <= j < size ->
  let row := cy - size / 2 + i in
  let col := cx - size / 2 + j in
  at_ (fst (extract_roi zero self img cx cy (Some size))) i j
  = if (0 <=? row) && (row <? Z.of_nat (height img))
       && (0 <=? col) && (col <? Z.of_nat (width img))
    then at_ img row col
    else zero.
Proof.
  intros Hs Hev Hx Hy Hi Hj row col.
  assert (Hsz : size = 2 * (size / 2)) by (pose proof (Z.div_mod size 2); lia).
  subst row col. set (hf := size / 2) in *.
  unfold extract_roi, shape2.
  cbn [fst pad_top pad_bottom pad_left pad_right]. fold hf.
  set (H := Z.of_nat (height img)). set (W := Z.of_nat (width img)).
  assert (HH : 0 <= H) by (subst H; lia).
  assert (HW : 0 <= W) by (subst W; lia).
  assert (Sy : slice_len (Z.max 0 (cy - hf)) (Z.min H (cy + hf)) H
               = Z.min H (cy + hf) - Z.max 0 (cy - hf)).
  { unfold slice_len, slice_bound.
    destruct (Z.ltb_spec (Z.min H (cy + hf)) 0),
             (Z.ltb_spec (Z.max 0 (cy - hf)) 0); lia. }
  assert (Sx : slice_len (Z.max 0 (cx - hf)) (Z.min W (cx + hf)) W
               = Z.min W (cx + hf) - Z.max 0 (cx - hf)).
  { unfold slice_len, slice_bound.
    destruct (Z.ltb_spec (Z.min W (cx + hf)) 0),
             (Z.ltb_spec (Z.max 0 (cx - hf)) 0); lia. }
  assert (Ty : slice_start (Z.max 0 (cy - hf)) H = Z.max 0 (cy - hf)).
  { unfold slice_start, slice_bound.
    destruct (Z.ltb_spec (Z.max 0 (cy - hf)) 0); lia. }
  assert (Tx : slice_start (Z.max 0 (cx - hf)) W = Z.max 0 (cx - hf)).
  { unfold slice_start, slice_bound.
    destruct (Z.ltb_spec (Z.max 0 (cx - hf)) 0); lia. }
  destruct ((cx - hf <? 0) || (cx + hf >? W) || (cy - hf <? 0) || (cy + hf >? H))
    eqn:Epad; unfold np_pad, slice2; cbn [height width at_]; fold H W;
    rewrite ?Ty, ?Tx, ?Sy, ?Sx.
  - rewrite !Z2Nat.id by lia.
    destruct ((0 <=? cy - hf + i) && (cy - hf + i <? H)
              && (0 <=? cx - hf + j) && (cx - hf + j <? W)) eqn:Ein.
    + apply andb_prop in Ein as [Ein E4]. apply andb_prop in Ein as [Ein E3].
      apply andb_prop in Ein as [E1 E2].
      apply Z.leb_le in E1, E3. apply Z.ltb_lt in E2, E4.
      replace ((Z.abs (Z.min 0 (cy - hf)) <=? i)
               && (i <? Z.abs (Z.min 0 (cy - hf))
                        + (Z.min H (cy + hf) - Z.max 0 (cy - hf)))
               && (Z.abs (Z.min 0 (cx - hf)) <=? j)
               && (j <? Z.abs (Z.min 0 (cx - hf))
                        + (Z.min W (cx + hf) - Z.max 0 (cx - hf))))
        with true.
      * f_equal; lia.
      * symmetry. rewrite !andb_true_iff, !Z.leb_le, !Z.ltb_lt. lia.
    + replace ((Z.abs (Z.min 0 (cy - hf)) <=? i)
               && (i <? Z.abs (Z.min 0 (cy - hf))
                        + (Z.min H (cy + hf) - Z.max 0 (cy - hf)))
               && (Z.abs (Z.min 0 (cx - hf)) <=? j)
               && (j <? Z.abs (Z.min 0 (cx - hf))
                        + (Z.min W (cx + hf) - Z.max 0 (cx - hf))))
        with false; [reflexivity|].
      symmetry. apply not_true_is_false. intros Hc. apply not_true_iff_false in Ein.
      apply Ein. rewrite !andb_true_iff, !Z.leb_le, !Z.ltb_lt in *. lia.
  - apply orb_false_elim in Epad as [Epad E4].
    apply orb_false_elim in Epad as [Epad E3].
    apply orb_false_elim in Epad as [E1 E2].
    apply Z.ltb_ge in E1, E3.
    rewrite Z.gtb_ltb in E2, E4. apply Z.ltb_ge in E2, E4.
    replace ((0 <=? cy - hf + i) && (cy - hf + i <? H)
             && (0 <=? cx - hf + j) && (cx - hf + j <? W)) with true.
    + f_equal; lia.
    + symmetry. rewrite !andb_true_iff, !Z.leb_le, !Z.ltb_lt. lia.
Qed.

(** X15.  The metadata agree with the crop.  Padding is reported exactly
    when the window leaves the image, and the pad amounts are given exactly
    then.  For an even size whose window meets the image, the clamped
    bounds lie in the image and, on each axis, the pad amounts and the
    extent of the clamped bounds add up to the size. *)
Theorem extract_roi_metadata (self : ROIGatingModule) (img : ndarray A)
    (cx cy size : Z) :
  let md := snd (extract_roi zero self img cx cy (Some size)) in
  let W := Z.of_nat (width img) in
  let H := Z.of_nat (height img) in
  let hf := size / 2 in
  (md_padding_applied md = false <->
     0 <= cx - hf /\ cx + hf <= W /\ 0 <= cy - hf /\ cy + hf <= H) /\
  (md_padding_applied md = false <-> md_pad_amounts md = None) /\
  (0 <= size -> size mod 2 = 0 ->
   - hf <= cx <= W + hf -> - hf <= cy <= H + hf ->
   let bd := md_roi_bounds md in
   0 <= b_x_min bd <= b_x_max bd /\ b_x_max bd <= W /\
   0 <= b_y_min bd <= b_y_max bd /\ b_y_max bd <= H /\
   forall p, md_pad_amounts md = Some p ->
     0 <= pad_top p /\ 0 <= pad_bottom p /\ 0 <= pad_left p /\ 0 <= pad_right p /\
     pad_left p + (b_x_max bd - b_x_min bd) + pad_right p = size /\
     pad_top p + (b_y_max bd - b_y_min bd) + pad_bottom p = size).
Proof.
  intros md W H hf. subst md. unfold extract_roi, shape2. cbn [snd].
  fold W H hf.
  assert (HH : 0 <= H) by (subst H; lia).
  assert (HW : 0 <= W) by (subst W; lia).
  cbn [md_padding_applied md_pad_amounts md_roi_bounds
       b_x_min b_x_max b_y_min b_y_max].
  split; [|split].
  - rewrite !orb_false_iff, !Z.ltb_ge, !Z.gtb_ltb, !Z.ltb_ge. tauto.
  - destruct ((cx - hf <? 0) || (cx + hf >? W) || (cy - hf <? 0)
              || (cy + hf >? H)); split; intros E; congruence.
  - intros Hs Hev Hx Hy.
    assert (Hsz : size = 2 * hf)
      by (subst hf; pose proof (Z.div_mod size 2); lia).
    split; [lia|]. split; [lia|]. split; [lia|]. split; [lia|].
    intros p Hp.
    destruct ((cx - hf <? 0) || (cx + hf >? W) || (cy - hf <? 0)
              || (cy + hf >? H)); [|discriminate].
    injection Hp as <-. cbn [pad_top pad_bottom pad_left pad_right]. lia.
Qed.

End Crop.

Lemma extract_roi_content_witness :
  at_ (fst (extract_roi 0 gater image10 1 5 (Some 4))) 0 0 = 0.
Proof.
  apply (extract_roi_content Z 0 gater image10 1 5 4 0 0);
    first [reflexivity | lia | (cbn; lia)].
Defined.

Lemma extract_roi_metadata_witness :
  exists p,
    md_pad_amounts (snd (extract_roi 0 gater image10 1 5 (Some 4))) = Some p /\
    pad_left p
      + (b_x_max (md_roi_bounds (snd (extract_roi 0 gater image10 1 5 (Some 4))))
         - b_x_min (md_roi_bounds (snd (extract_roi 0 gater image10 1 5 (Some 4)))))
      + pad_right p = 4.
Proof.
  destruct (extract_roi_metadata Z 0 gater image10 1 5 4) as (_ & _ & Hb).
  destruct Hb as (_ & _ & _ & _ & Hp);
    try first [reflexivity | lia | (cbn; lia)].
  eexists. split; [reflexivity|].
  destruct (Hp _ eq_refl) as (_ & _ & _ & _ & Hsum & _). exact Hsum.
Defined.

(* ------------------------------------------------------------------ *)
(** ** The thermal cue *)

(** X16.  [process_thermal_cue] shifts the thermal pixel by the boresight
    offset and crops there: on a command that carries the pixel (u, v) it
    returns the crop and metadata of [extract_roi] at (u + dx, v + dy) and
    reports both pixels and the offset.  A command without the
    "turret_command" entry, without its "target_pixel" entry, or without
    "u" or "v" in it (or with a null there) is refused with ValueError. *)
Theorem process_thermal_cue_spec {A : Type} (zero : A)
    (self : ROIGatingModule) (img : ndarray A) (roi_size : option Z) :
  (forall u v,
     process_thermal_cue zero self img (cue_at u v) roi_size
     = Ok (fst (extract_roi zero self img (u + dx self) (v + dy self) roi_size),
           {| cue_roi :=
                snd (extract_roi zero self img (u + dx self) (v + dy self)
                       roi_size);
              cue_thermal := (u, v);
              cue_polarimetric := (u + dx self, v + dy self);
              cue_boresight_offset := (dx self, dy self) |})) /\
  (forall items,
     lookup "turret_command"%string items = None ->
     process_thermal_cue zero self img (JObject items) roi_size
     = Raise ValueError) /\
  (forall items tc,
     lookup "turret_command"%string items = Some (JObject tc) ->
     lookup "target_pixel"%string tc = None ->
     process_thermal_cue zero self img (JObject items) roi_size
     = Raise ValueError) /\
  (forall items tc coords,
     lookup "turret_command"%string items = Some (JObject tc) ->
     lookup "target_pixel"%string tc = Some (JObject coords) ->
     (lookup "u"%string coords = None \/ lookup "u"%string coords = Some JNull \/
      lookup "v"%string coords = None \/ lookup "v"%string coords = Some JNull) ->
     process_thermal_cue zero self img (JObject items) roi_size
     = Raise ValueError).
Proof.
  split; [|split; [|split]].
  - intros u v. unfold process_thermal_cue, cue_at. cbn.
    destruct (extract_roi zero self img (u + dx self) (v + dy self) roi_size).
    reflexivity.
  - intros items Hno. unfold process_thermal_cue. cbn. rewrite Hno. reflexivity.
  - intros items tc Htc Hno. unfold process_thermal_cue. cbn.
    rewrite Htc. cbn. rewrite Hno. reflexivity.
  - intros items tc coords Htc Hco Hmiss. unfold process_thermal_cue. cbn.
    rewrite Htc. cbn. rewrite Hco. cbn.
    destruct Hmiss as [Hu | [Hu | [Hv | Hv]]].
    + rewrite Hu. reflexivity.
    + rewrite Hu. reflexivity.
    + rewrite Hv. destruct (lookup "u"%string coords) as [[| |]|]; reflexivity.
    + rewrite Hv. destruct (lookup "u"%string coords) as [[| |]|]; reflexivity.
Qed.

Lemma process_thermal_cue_spec_witness :
  process_thermal_cue 0%Z gater image10
    (JObject [("turret_command"%string, JObject [])]) (Some 4%Z)
  = Raise ValueError.
Proof.
  apply (proj1 (proj2 (proj2 (process_thermal_cue_spec 0%Z gater image10
                                (Some 4%Z))))
           [("turret_command"%string, JObject [])] []);
    reflexivity.
Defined.

(* ------------------------------------------------------------------ *)
(** ** The speed-up estimate *)

Import PrimFloat.

(** X17.  [calculate_speedup] on binary64 floats.  A ROI size of 0 raises
    ZeroDivisionError, whatever the frame.  For the call of the module's unit
    test, a 2448 x 2048 frame and a ROI of 256, it returns a pixel reduction
    factor of 76.5 and a speed-up factor of 76.50000000000001, so the check
    [speedup_factor >= 10.0] passes.  The speed-up factor is the quotient of
    two rounded times and is not always the pixel reduction factor: for a
    490 x 49 frame and a ROI of 49 the pixel reduction factor is exactly
    10.0 and the speed-up factor is 9.999999999999998, which fails the
    check. *)
Theorem calculate_speedup_binary64 :
  (forall w h : Z,
     calculate_speedup (w, h) 0 = Raise ZeroDivisionError) /\
  (exists m,
     calculate_speedup (2448, 2048) 256 = Ok m /\
     full_frame_pixels m = 5013504 /\ roi_pixels m = 65536 /\
     pixel_reduction_factor m = 76.5%float /\
     speedup_factor m = 76.50000000000001%float /\
     meets_10x m = true) /\
  (exists m,
     calculate_speedup (490, 49) 49 = Ok m /\
     full_frame_pixels m = 24010 /\ roi_pixels m = 2401 /\
     pixel_reduction_factor m = 10.0%float /\
     speedup_factor m = 9.999999999999998%float /\
     meets_10x m = false).
Proof.
  split; [|split].
  - intros w h. reflexivity.
  - eexists. split; [vm_compute; reflexivity|].
    vm_compute. repeat split.
  - eexists. split; [vm_compute; reflexivity|].
    vm_compute. repeat split.
Qed.

End RoiGatingFacts.

(* ================================================================== *)
(** * Properties of the material classifier *)
(* ================================================================== *)

Module PolarimetryFacts.

Import Polarimetry.
Local Open Scope Q_scope.

(** ** Basic facts *)

Lemma select_row_total (xs : list Q) :
  forall ms, length xs = length ms -> exists vs, select_row xs ms = Ok vs.
Proof.
  induction xs as [|x xs IH]; intros [|m ms] Hlen; simpl in Hlen; try discriminate.
  - now exists [].
  - injection Hlen as Hlen. destruct (IH ms Hlen) as [vs Hvs].
    simpl. rewrite Hvs. simpl. eauto.
Qed.

Lemma masked_select_total (a : list (list Q)) :
  forall mask, same_shape a mask -> exists vs, masked_select a mask = Ok vs.
Proof.
  unfold same_shape.
  induction a as [|row a IH]; intros [|mrow mask] Hs; simpl in Hs; try discriminate.
  - now exists [].
  - injection Hs as Hrow Hrest.
    destruct (select_row_total row mrow Hrow) as [v1 Hv1].
    destruct (IH mask Hrest) as [v2 Hv2].
    simpl. rewrite Hv1, Hv2. simpl. eauto.
Qed.

(** The guard [background_dolp_mean > 0] keeps the divisor away from zero:
    the contrast ratio is always computed. *)
Lemma contrast_of_total (mt mb : fnum) : exists c, contrast_of mt mb = Ok c.
Proof.
  unfold contrast_of, fgt, flt.
  destruct mb as [y|]; [|eauto].
  destruct (Qlt_bool 0 y) eqn:Epos; [|eauto].
  unfold true_divide. destruct (Qeq_bool y 0) eqn:Ez.
  - apply Qeq_bool_iff in Ez. unfold Qlt_bool in Epos.
    apply negb_true_iff in Epos.
    assert (Hle : Qle_bool y 0 = true) by (apply Qle_bool_iff; rewrite Ez; apply Qle_refl).
    congruence.
  - destruct mt; eauto.
Qed.

Lemma Qlt_bool_iff (x y : Q) : Qlt_bool x y = true <-> x < y.
Proof.
  unfold Qlt_bool. rewrite negb_true_iff. split.
  - intros Hb. apply Qnot_le_lt. intros Hle.
    apply Qle_bool_iff in Hle. congruence.
  - intros Hlt. destruct (Qle_bool y x) eqn:E; [|reflexivity].
    apply Qle_bool_iff in E. exfalso. exact (Qlt_not_le _ _ Hlt E).
Qed.

Lemma Qlt_bool_false_iff (x y : Q) : Qlt_bool x y = false <-> y <= x.
Proof.
  unfold Qlt_bool. rewrite negb_false_iff. apply Qle_bool_iff.
Qed.

(** What [classify_target] returns, once both selections succeed. *)
Lemma classify_target_unfold (self : PolarimetrySimulator) d t b vt vb c :
  masked_select d t = Ok vt -> masked_select d b = Ok vb ->
  contrast_of (np_mean vt) (np_mean vb) = Ok c ->
  exists r,
    classify_target self d t b = Ok r /\
    verdict r = decision_tree self c (np_mean vt) /\
    contrast_ratio (metrics r) = c.
Proof.
  intros Ht Hb Hc. unfold classify_target. rewrite Ht. simpl.
  rewrite Hb. simpl. rewrite Hc. simpl.
  destruct (decision_tree self c (np_mean vt)) as [[cls conf] v].
  eexists. split; [reflexivity|]. split; reflexivity.
Qed.

Lemma classify_target_total (self : PolarimetrySimulator) d t b :
  same_shape d t -> same_shape d b ->
  exists vt vb c r,
    masked_select d t = Ok vt /\ masked_select d b = Ok vb /\
    contrast_of (np_mean vt) (np_mean vb) = Ok c /\
    classify_target self d t b = Ok r /\
    verdict r = decision_tree self c (np_mean vt) /\
    contrast_ratio (metrics r) = c.
Proof.
  intros Ht Hb.
  destruct (masked_select_total d t Ht) as [vt Hvt].
  destruct (masked_select_total d b Hb) as [vb Hvb].
  destruct (contrast_of_total (np_mean vt) (np_mean vb)) as [c Hc].
  destruct (classify_target_unfold self d t b vt vb c Hvt Hvb Hc)
    as (r & Hr & Hv & Hcr).
  exists vt, vb, c, r. repeat split; assumption.
Qed.

Lemma contrast_of_pos (x y : Q) :
  0 < y -> contrast_of (FNum x) (FNum y) = Ok (FNum (x / y)).
Proof.
  intros Hy. unfold contrast_of, fgt, flt.
  apply Qlt_bool_iff in Hy as Hb. rewrite Hb. unfold true_divide.
  destruct (Qeq_bool y 0) eqn:Ez; [|reflexivity].
  apply Qeq_bool_iff in Ez. rewrite Ez in Hy. now apply Qlt_irrefl in Hy.
Qed.

Lemma contrast_of_nonpos (mt : fnum) (y : Q) :
  y <= 0 -> contrast_of mt (FNum y) = Ok (FNum 0).
Proof.
  intros Hy. unfold contrast_of, fgt, flt.
  apply Qlt_bool_false_iff in Hy. now rewrite Hy.
Qed.

Lemma contrast_of_nan (mt : fnum) : contrast_of mt FNaN = Ok (FNum 0).
Proof. reflexivity. Qed.

(** ** The decision tree *)

(** C4.  With masks of the shape of the map, [classify_target] returns; the
    contrast ratio it reports is mean_target / mean_background when
    mean_background is positive and 0 when mean_background <= 0; and the
    verdict follows the six branches in order, with the thresholds 2.0,
    0.10 (strict), 0.08, 0.05 and 0.03. *)
Theorem classify_target_decision_tree
    (d : list (list Q)) (t b : list (list bool)) :
  same_shape d t -> same_shape d b ->
  exists vt vb r,
    masked_select d t = Ok vt /\ masked_select d b = Ok vb /\
    classify_target simulator d t b = Ok r /\
    let mean_target := np_mean vt in
    let mean_background := np_mean vb in
    let c := contrast_ratio (metrics r) in
    (forall x y, mean_target = FNum x -> mean_background = FNum y ->
                 0 < y -> c = FNum (x / y)) /\
    (forall y, mean_background = FNum y -> y <= 0 -> c = FNum 0) /\
    verdict r =
      if flt c (FNum 2) then (UNKNOWN, LOW, INSUFFICIENT_CONTRAST)
      else if fgt mean_target (FNum (1 # 10)) then (DRONE, HIGH, CONFIRM)
      else if fge mean_target (FNum (8 # 100)) then (DRONE, MEDIUM, CONFIRM)
      else if fge mean_target (FNum (5 # 100)) then (UNKNOWN, LOW, REQUIRE_FUSION)
      else if fge mean_target (FNum (3 # 100)) then (BIRD, MEDIUM, REJECT)
      else (BIRD, HIGH, REJECT).
Proof.
  intros Ht Hb.
  destruct (classify_target_total simulator d t b Ht Hb)
    as (vt & vb & c & r & Hvt & Hvb & Hc & Hr & Hv & Hcr).
  exists vt, vb, r. repeat (split; [assumption|]). cbv zeta.
  rewrite Hcr. split; [|split].
  - intros x y Hx Hy Hpos. rewrite Hx, Hy, (contrast_of_pos x y Hpos) in Hc.
    now injection Hc as <-.
  - intros y Hy Hle. rewrite Hy, (contrast_of_nonpos _ y Hle) in Hc.
    now injection Hc as <-.
  - rewrite Hv. unfold decision_tree. cbn [MIN_CONTRAST_RATIO DRONE_DOLP_HIGH
      DRONE_DOLP_MED AMBIGUOUS_DOLP BIRD_DOLP_MED simulator].
    assert (E : fgt (np_mean vt) (FNum (10 # 100))
                = fgt (np_mean vt) (FNum (1 # 10))).
    { unfold fgt, flt. destruct (np_mean vt) as [x|]; [|reflexivity].
      unfold Qlt_bool. f_equal.
      apply eq_true_iff_eq. rewrite !Qle_bool_iff.
      assert (Hq : 10 # 100 == 1 # 10) by reflexivity. now rewrite Hq. }
    now rewrite E.
Qed.

Lemma classify_target_decision_tree_witness :
  exists vt vb r,
    masked_select (scene (12 # 100) (3 # 100)) target_px = Ok vt /\
    masked_select (scene (12 # 100) (3 # 100)) background_px = Ok vb /\
    classify_target simulator (scene (12 # 100) (3 # 100))
      target_px background_px = Ok r /\
    verdict r = (DRONE, HIGH, CONFIRM).
Proof.
  destruct (classify_target_decision_tree (scene (12 # 100) (3 # 100))
              target_px background_px eq_refl eq_refl)
    as (vt & vb & r & Hvt & Hvb & Hr & _).
  exists vt, vb, r. repeat (split; [assumption|]).
  vm_compute in Hr. injection Hr as <-. reflexivity.
Defined.

(** C2 (as the code has it).  When the target mean is exactly 0.10 and the
    computed contrast ratio is at least 2.0, the verdict is DRONE / MEDIUM /
    CONFIRM: the HIGH branch tests [target_dolp_mean > DRONE_DOLP_HIGH]
    strictly, so 0.10 itself falls to the [>= DRONE_DOLP_MED] branch. *)
Theorem exact_high_threshold_is_medium
    (d : list (list Q)) (t b : list (list bool)) (vt : list Q) (x : Q) :
  masked_select d t = Ok vt -> same_shape d b ->
  np_mean vt = FNum x -> x == 1 # 10 ->
  exists r,
    classify_target simulator d t b = Ok r /\
    (fge (contrast_ratio (metrics r)) (FNum 2) = true ->
     verdict r = (DRONE, MEDIUM, CONFIRM)).
Proof.
  intros Hvt Hb Hx Hq.
  destruct (masked_select_total d b Hb) as [vb Hvb].
  destruct (contrast_of_total (np_mean vt) (np_mean vb)) as [c Hc].
  destruct (classify_target_unfold simulator d t b vt vb c Hvt Hvb Hc)
    as (r & Hr & Hv & Hcr).
  exists r. split; [assumption|]. intros Hge.
  rewrite Hv, Hx. rewrite Hcr in Hge. unfold decision_tree.
  cbn [MIN_CONTRAST_RATIO DRONE_DOLP_HIGH DRONE_DOLP_MED simulator].
  assert (E1 : flt c (FNum 2) = false).
  { unfold fge, fle in Hge. unfold flt. destruct c as [q|]; [|reflexivity].
    unfold Qlt_bool. now rewrite Hge. }
  assert (E2 : fgt (FNum x) (FNum (10 # 100)) = false).
  { unfold fgt, flt. apply Qlt_bool_false_iff. rewrite Hq. discriminate. }
  assert (E3 : fge (FNum x) (FNum (8 # 100)) = true).
  { unfold fge, fle. apply Qle_bool_iff. rewrite Hq. discriminate. }
  now rewrite E1, E2, E3.
Qed.

Lemma exact_high_threshold_is_medium_witness :
  exists r,
    classify_target simulator (scene (1 # 10) (1 # 20))
      target_px background_px = Ok r /\
    verdict r = (DRONE, MEDIUM, CONFIRM).
Proof.
  destruct (exact_high_threshold_is_medium (scene (1 # 10) (1 # 20))
              target_px background_px [1 # 10] ((1 # 10) / 1)
              eq_refl eq_refl eq_refl eq_refl) as (r & Hr & Hv).
  exists r. split; [assumption|]. apply Hv.
  vm_compute in Hr. injection Hr as <-. reflexivity.
Defined.

(** C2 (as the specification words it) fails: on the one-row scene with
    target value 0.10 and background value 0.05 the target mean is exactly
    0.10 and the contrast ratio exactly 2.0, and the verdict is not DRONE /
    HIGH / CONFIRM. *)
Lemma exact_high_threshold_not_high :
  exists vt x r,
    masked_select (scene (1 # 10) (1 # 20)) target_px = Ok vt /\
    np_mean vt = FNum x /\ x == 1 # 10 /\
    classify_target simulator (scene (1 # 10) (1 # 20))
      target_px background_px = Ok r /\
    fge (contrast_ratio (metrics r)) (FNum 2) = true /\
    verdict r <> (DRONE, HIGH, CONFIRM).
Proof.
  eexists. eexists. eexists.
  split; [reflexivity|]. split; [reflexivity|]. split; [reflexivity|].
  split; [reflexivity|]. split; [reflexivity|]. discriminate.
Qed.

(** C6.  When the background mean is 0 the division is not attempted: the
    function returns (no ZeroDivisionError), the contrast ratio is 0 and the
    verdict is UNKNOWN / LOW / INSUFFICIENT_CONTRAST. *)
Theorem zero_background_insufficient_contrast
    (d : list (list Q)) (t b : list (list bool)) (vb : list Q) (y : Q) :
  same_shape d t -> masked_select d b = Ok vb ->
  np_mean vb = FNum y -> y == 0 ->
  exists r,
    classify_target simulator d t b = Ok r /\
    contrast_ratio (metrics r) = FNum 0 /\
    verdict r = (UNKNOWN, LOW, INSUFFICIENT_CONTRAST).
Proof.
  intros Ht Hvb Hy Hz.
  destruct (masked_select_total d t Ht) as [vt Hvt].
  assert (Hc : contrast_of (np_mean vt) (np_mean vb) = Ok (FNum 0)).
  { rewrite Hy. apply contrast_of_nonpos. rewrite Hz. apply Qle_refl. }
  destruct (classify_target_unfold simulator d t b vt vb _ Hvt Hvb Hc)
    as (r & Hr & Hv & Hcr).
  exists r. split; [assumption|]. split; [assumption|].
  rewrite Hv. reflexivity.
Qed.

Lemma zero_background_insufficient_contrast_witness :
  exists r,
    classify_target simulator (scene (12 # 100) 0)
      target_px background_px = Ok r /\
    contrast_ratio (metrics r) = FNum 0 /\
    verdict r = (UNKNOWN, LOW, INSUFFICIENT_CONTRAST).
Proof.
  apply (zero_background_insufficient_contrast (scene (12 # 100) 0)
           target_px background_px [0] (0 / 1) eq_refl eq_refl eq_refl eq_refl).
Defined.

(** Whatever the thresholds, the verdict of the tree is one of the six. *)
Lemma decision_tree_in_six (self : PolarimetrySimulator) (c mt : fnum) :
  In (decision_tree self c mt) six_verdicts.
Proof.
  unfold decision_tree, six_verdicts.
  repeat match goal with
  | |- context [if ?g then _ else _] => destruct g
  end; simpl; tauto.
Qed.

(** C9.  With masks of the shape of the map, the verdict returned is one of
    six triples; on them DRONE goes with CONFIRM and only with it, BIRD with
    REJECT, UNKNOWN with REQUIRE_FUSION or INSUFFICIENT_CONTRAST, and UNKNOWN
    always has LOW confidence.  Each of the six is returned for some input. *)
Theorem classify_target_six_verdicts :
  (forall (self : PolarimetrySimulator) d t b,
     same_shape d t -> same_shape d b ->
     exists r,
       classify_target self d t b = Ok r /\
       In (verdict r) six_verdicts /\
       (classification r = DRONE <-> veto_decision r = CONFIRM) /\
       (classification r = BIRD <-> veto_decision r = REJECT) /\
       (classification r = UNKNOWN <->
          veto_decision r = REQUIRE_FUSION \/
          veto_decision r = INSUFFICIENT_CONTRAST) /\
       (classification r = UNKNOWN -> confidence r = LOW)) /\
  (forall v, In v six_verdicts ->
     exists d t b r,
       classify_target simulator d t b = Ok r /\ verdict r = v) /\
  NoDup six_verdicts /\ length six_verdicts = 6%nat.
Proof.
  split; [|split; [|split]].
  - intros self d t b Ht Hb.
    destruct (classify_target_total self d t b Ht Hb)
      as (vt & vb & c & r & _ & _ & _ & Hr & Hv & _).
    exists r. split; [assumption|].
    pose proof (decision_tree_in_six self c (np_mean vt)) as Hin.
    rewrite <- Hv in Hin. split; [assumption|].
    unfold verdict, six_verdicts in Hin. simpl in Hin.
    destruct r as [cls conf v m]. cbn [classification confidence veto_decision] in *.
    repeat match goal with
    | H : _ \/ _ |- _ => destruct H as [H|H]
    | H : (_, _, _) = (_, _, _) |- _ => injection H as <- <- <-
    | H : False |- _ => destruct H
    end;
    (repeat split; try (intros; discriminate); try (intros; reflexivity);
     try (intros [H|H]; discriminate); try (intros _; auto)).
  - intros v Hin. simpl in Hin.
    destruct Hin as [<-|[<-|[<-|[<-|[<-|[<-|[]]]]]]].
    + exists (scene (12 # 100) (12 # 100)), target_px, background_px.
      eexists. split; reflexivity.
    + exists (scene (12 # 100) (3 # 100)), target_px, background_px.
      eexists. split; reflexivity.
    + exists (scene (9 # 100) (3 # 100)), target_px, background_px.
      eexists. split; reflexivity.
    + exists (scene (6 # 100) (2 # 100)), target_px, background_px.
      eexists. split; reflexivity.
    + exists (scene (4 # 100) (1 # 100)), target_px, background_px.
      eexists. split; reflexivity.
    + exists (scene (2 # 100) (1 # 100)), target_px, background_px.
      eexists. split; reflexivity.
  - unfold six_verdicts.
    repeat (constructor; [simpl; intuition discriminate|]). constructor.
  - reflexivity.
Qed.

Lemma classify_target_six_verdicts_witness :
  exists r,
    classify_target simulator (scene (9 # 100) (3 # 100))
      target_px background_px = Ok r /\
    In (verdict r) six_verdicts.
Proof.
  destruct (proj1 classify_target_six_verdicts simulator
              (scene (9 # 100) (3 # 100)) target_px background_px
              eq_refl eq_refl) as (r & Hr & Hin & _).
  exists r. split; assumption.
Defined.

(* ------------------------------------------------------------------ *)
(** ** Errors *)

Lemma select_row_shape (xs : list Q) :
  forall ms vs, select_row xs ms = Ok vs -> length xs = length ms.
Proof.
  induction xs as [|x xs IH]; intros [|m ms] vs H; simpl in H;
    try discriminate; [reflexivity|].
  destruct (select_row xs ms) as [r|e] eqn:E; simpl in H; [|discriminate].
  simpl. f_equal. exact (IH ms r E).
Qed.

Lemma masked_select_shape (a : list (list Q)) :
  forall mask vs, masked_select a mask = Ok vs -> same_shape a mask.
Proof.
  unfold same_shape.
  induction a as [|row a IH]; intros [|mrow mask] vs H; simpl in H;
    try discriminate; [reflexivity|].
  destruct (select_row row mrow) as [r1|e] eqn:E1; simpl in H; [|discriminate].
  destruct (masked_select a mask) as [r2|e] eqn:E2; simpl in H; [|discriminate].
  simpl. f_equal; [exact (select_row_shape row mrow r1 E1) | exact (IH mask r2 E2)].
Qed.

Lemma select_row_raises (xs : list Q) :
  forall ms e, select_row xs ms = Raise e -> e = IndexError.
Proof.
  induction xs as [|x xs IH]; intros [|m ms] e H; simpl in H;
    try discriminate; try (now injection H as <-).
  destruct (select_row xs ms) as [r|e'] eqn:E; simpl in H; [discriminate|].
  injection H as <-. exact (IH ms e' E).
Qed.

Lemma masked_select_raises (a : list (list Q)) :
  forall mask e, masked_select a mask = Raise e -> e = IndexError.
Proof.
  induction a as [|row a IH]; intros [|mrow mask] e H; simpl in H;
    try discriminate; try (now injection H as <-).
  destruct (select_row row mrow) as [r1|e1] eqn:E1; simpl in H.
  - destruct (masked_select a mask) as [r2|e2] eqn:E2; simpl in H;
      [discriminate|].
    injection H as <-. exact (IH mask e2 E2).
  - injection H as <-. exact (select_row_raises row mrow e1 E1).
Qed.

(** X8.  [classify_target] returns exactly when both masks have the shape
    of the map; otherwise it raises IndexError, and it never raises a
    division error, whatever the values of the map. *)
Theorem classify_target_errors (self : PolarimetrySimulator)
    (d : list (list Q)) (t b : list (list bool)) :
  ((exists r, classify_target self d t b = Ok r) <->
     same_shape d t /\ same_shape d b) /\
  (forall e, classify_target self d t b = Raise e -> e = IndexError).
Proof.
  split; [split|].
  - intros [r Hr]. unfold classify_target in Hr.
    destruct (masked_select d t) as [vt|e] eqn:Et; simpl in Hr; [|discriminate].
    destruct (masked_select d b) as [vb|e] eqn:Eb; simpl in Hr; [|discriminate].
    split; eapply masked_select_shape; eassumption.
  - intros [Ht Hb].
    destruct (classify_target_total self d t b Ht Hb)
      as (vt & vb & c & r & _ & _ & _ & Hr & _).
    now exists r.
  - intros e He. unfold classify_target in He.
    destruct (masked_select d t) as [vt|e1] eqn:Et; simpl in He.
    + destruct (masked_select d b) as [vb|e2] eqn:Eb; simpl in He.
      * destruct (contrast_of_total (np_mean vt) (np_mean vb)) as [c Hc].
        rewrite Hc in He. simpl in He.
        destruct (decision_tree self c (np_mean vt)) as [[cls conf] v].
        discriminate.
      * injection He as <-. eapply masked_select_raises; eassumption.
    + injection He as <-. eapply masked_select_raises; eassumption.
Qed.

Lemma classify_target_errors_witness :
  classify_target simulator (scene (1 # 10) (1 # 20)) [[true]] background_px
  = Raise IndexError.
Proof.
  destruct (classify_target simulator (scene (1 # 10) (1 # 20)) [[true]]
              background_px) as [r|e] eqn:E.
  - discriminate E.
  - f_equal.
    exact (proj2 (classify_target_errors simulator (scene (1 # 10) (1 # 20))
                    [[true]] background_px) e E).
Defined.

(* ------------------------------------------------------------------ *)
(** ** When a detection is confirmed *)

(** X9.  The veto is CONFIRM exactly when the contrast ratio is a number
    at least 2.0 and the target mean is a number at least 0.08; in
    particular a detection with insufficient contrast is never confirmed. *)
Theorem confirm_iff_contrast_and_mean
    (d : list (list Q)) (t b : list (list bool)) (vt : list Q)
    (r : classification_result) :
  masked_select d t = Ok vt ->
  classify_target simulator d t b = Ok r ->
  (veto_decision r = CONFIRM <->
     fge (contrast_ratio (metrics r)) (FNum 2) = true /\
     fge (np_mean vt) (FNum (8 # 100)) = true) /\
  (veto_decision r = CONFIRM <-> classification r = DRONE).
Proof.
  intros Hvt Hr. unfold classify_target in Hr. rewrite Hvt in Hr. simpl in Hr.
  destruct (masked_select d b) as [vb|e] eqn:Eb; simpl in Hr; [|discriminate].
  destruct (contrast_of (np_mean vt) (np_mean vb)) as [c|e] eqn:Ec;
    simpl in Hr; [|discriminate].
  unfold decision_tree in Hr.
  cbn [MIN_CONTRAST_RATIO DRONE_DOLP_HIGH DRONE_DOLP_MED AMBIGUOUS_DOLP
       BIRD_DOLP_MED simulator] in Hr.
  assert (Hhigh : fgt (np_mean vt) (FNum (10 # 100)) = true ->
                  fge (np_mean vt) (FNum (8 # 100)) = true).
  { unfold fgt, flt, fge, fle. destruct (np_mean vt) as [x|]; [|discriminate].
    rewrite Qlt_bool_iff, Qle_bool_iff. intros H.
    apply Qlt_le_weak. eapply Qlt_trans; [|exact H]. reflexivity. }
  assert (Hc2 : flt c (FNum 2) = false ->
                fge (np_mean vt) (FNum (8 # 100)) = true ->
                fge c (FNum 2) = true).
  { intros Hlt Hge. destruct c as [q|].
    - unfold flt in Hlt. unfold fge, fle.
      apply Qlt_bool_false_iff in Hlt. now apply Qle_bool_iff.
    - exfalso. unfold contrast_of in Ec.
      destruct (np_mean vb) as [y|]; [|discriminate].
      destruct (fgt (FNum y) (FNum 0)); [|discriminate].
      unfold true_divide in Ec. destruct (Qeq_bool y 0); [discriminate|].
      destruct (np_mean vt); [discriminate|]. discriminate Hge. }
  assert (Hlt2 : flt c (FNum 2) = true -> fge c (FNum 2) = false).
  { destruct c as [q|]; [|discriminate]. unfold flt, fge, fle, Qlt_bool.
    intros H. now apply negb_true_iff in H. }
  destruct (flt c (FNum 2)) eqn:E1.
  { injection Hr as <-. cbn [veto_decision classification metrics contrast_ratio].
    rewrite (Hlt2 eq_refl). split; split; intros H;
      try discriminate; destruct H; discriminate. }
  destruct (fgt (np_mean vt) (FNum (10 # 100))) eqn:E2.
  { injection Hr as <-. cbn [veto_decision classification metrics contrast_ratio].
    split; split; intros _; auto. }
  destruct (fge (np_mean vt) (FNum (8 # 100))) eqn:E3.
  { injection Hr as <-. cbn [veto_decision classification metrics contrast_ratio].
    split; split; intros _; auto. }
  destruct (fge (np_mean vt) (FNum (5 # 100))) eqn:E4;
    [|destruct (fge (np_mean vt) (FNum (3 # 100))) eqn:E5];
    injection Hr as <-;
    cbn [veto_decision classification metrics contrast_ratio];
    (split; split; intros H; try discriminate; destruct H; discriminate).
Qed.

Lemma confirm_iff_contrast_and_mean_witness :
  exists r,
    classify_target simulator (scene (9 # 100) (3 # 100))
      target_px background_px = Ok r /\
    veto_decision r = CONFIRM /\ classification r = DRONE.
Proof.
  eexists. split; [reflexivity|].
  destruct (confirm_iff_contrast_and_mean (scene (9 # 100) (3 # 100))
              target_px background_px [9 # 100] _ eq_refl eq_refl)
    as [Hiff Hdrone].
  split; [apply Hiff; split; reflexivity | apply Hdrone, Hiff; split; reflexivity].
Defined.

(* ------------------------------------------------------------------ *)
(** ** Empty masks *)

(** X10.  A mask that selects nothing has a NaN mean, and the tree then
    runs on false comparisons.  With no target pixel and a positive
    background mean the contrast ratio is NaN and the verdict is BIRD / HIGH
    / REJECT; with no background pixel the contrast ratio is 0 and the
    verdict is UNKNOWN / LOW / INSUFFICIENT_CONTRAST. *)
Theorem empty_mask_verdicts
    (d : list (list Q)) (t b : list (list bool)) :
  (forall vb y,
     masked_select d t = Ok [] -> masked_select d b = Ok vb ->
     np_mean vb = FNum y -> 0 < y ->
     exists r,
       classify_target simulator d t b = Ok r /\
       contrast_ratio (metrics r) = FNaN /\
       verdict r = (BIRD, HIGH, REJECT)) /\
  (same_shape d t -> masked_select d b = Ok [] ->
     exists r,
       classify_target simulator d t b = Ok r /\
       contrast_ratio (metrics r) = FNum 0 /\
       verdict r = (UNKNOWN, LOW, INSUFFICIENT_CONTRAST)).
Proof.
  split.
  - intros vb y Ht Hb Hy Hpos.
    assert (Hc : contrast_of (np_mean []) (np_mean vb) = Ok FNaN).
    { rewrite Hy. unfold contrast_of, fgt, flt.
      apply Qlt_bool_iff in Hpos as Hp. rewrite Hp. unfold true_divide.
      destruct (Qeq_bool y 0) eqn:Ez; [|reflexivity].
      apply Qeq_bool_iff in Ez. rewrite Ez in Hpos.
      now apply Qlt_irrefl in Hpos. }
    destruct (classify_target_unfold simulator d t b [] vb FNaN Ht Hb Hc)
      as (r & Hr & Hv & Hcr).
    exists r. repeat split; assumption.
  - intros Ht Hb. destruct (masked_select_total d t Ht) as [vt Hvt].
    destruct (classify_target_unfold simulator d t b vt [] (FNum 0) Hvt Hb
                (contrast_of_nan (np_mean vt))) as (r & Hr & Hv & Hcr).
    exists r. repeat split; assumption.
Qed.

Lemma empty_mask_verdicts_witness :
  exists r,
    classify_target simulator (scene (12 # 100) (3 # 100))
      [[false; false]] background_px = Ok r /\
    contrast_ratio (metrics r) = FNaN /\
    verdict r = (BIRD, HIGH, REJECT).
Proof.
  apply (proj1 (empty_mask_verdicts (scene (12 # 100) (3 # 100))
                  [[false; false]] background_px)
           [3 # 100] ((3 # 100) / 1) eq_refl eq_refl eq_refl eq_refl).
Defined.

(* ------------------------------------------------------------------ *)
(** ** Bounds on the means and on the contrast ratio *)

Import Lqa.

Lemma Qsum_bounds (lo hi : Q) (l : list Q) :
  Forall (fun x => lo <= x <= hi) l ->
  inject_Z (Z.of_nat (length l)) * lo <= Qsum l /\
  Qsum l <= inject_Z (Z.of_nat (length l)) * hi.
Proof.
  induction 1 as [|x l Hx _ IH].
  - unfold Qsum; simpl. change (inject_Z 0) with 0. split; lra.
  - cbn [length]. rewrite Nat2Z.inj_succ, <- Z.add_1_r, inject_Z_plus.
    unfold Qsum in *. cbn [fold_right]. change (inject_Z 1) with 1.
    destruct IH, Hx. split; nra.
Qed.

(** The mean of a non-empty selection lies between any bounds of its
    values. *)
Lemma np_mean_bounds (lo hi : Q) (l : list Q) :
  l <> [] -> Forall (fun x => lo <= x <= hi) l ->
  exists m, np_mean l = FNum m /\ lo <= m <= hi.
Proof.
  intros Hne Hall. destruct (Qsum_bounds lo hi l Hall) as [Hlo Hhi].
  destruct l as [|x l]; [contradiction|].
  eexists. split; [reflexivity|].
  set (n := inject_Z (Z.of_nat (length (x :: l)))) in *.
  assert (Hn : 0 < n).
  { subst n. change 0 with (inject_Z 0). rewrite <- Zlt_Qlt.
    cbn [length]. lia. }
  split.
  - apply Qle_shift_div_l; [exact Hn|]. rewrite Qmult_comm. exact Hlo.
  - apply Qle_shift_div_r; [exact Hn|]. rewrite Qmult_comm. exact Hhi.
Qed.

Lemma quotient_bounds (mt mb tlo thi blo bhi : Q) :
  0 <= tlo -> 0 < blo -> tlo <= mt <= thi -> blo <= mb <= bhi ->
  tlo / bhi <= mt / mb /\ mt / mb <= thi / blo.
Proof.
  intros Ht Hb [H1 H2] [H3 H4].
  assert (Hmb : 0 < mb) by lra. assert (Hbh : 0 < bhi) by lra.
  split.
  - apply Qle_shift_div_l; [assumption|].
    assert (E : tlo / bhi * mb == (tlo * mb) / bhi) by (field; lra).
    rewrite E. apply Qle_shift_div_r; [assumption|]. nra.
  - apply Qle_shift_div_r; [assumption|].
    assert (E : thi / blo * mb == (thi * mb) / blo) by (field; lra).
    rewrite E. apply Qle_shift_div_l; [assumption|]. nra.
Qed.

(** With target values within [tlo, thi] and background values within
    [blo, bhi], [0 <= tlo] and [0 < blo], the contrast ratio is a number
    between [tlo / bhi] and [thi / blo]. *)
Lemma classify_target_bounded (self : PolarimetrySimulator)
    (d : list (list Q)) (t b : list (list bool)) (vt vb : list Q)
    (tlo thi blo bhi : Q) :
  masked_select d t = Ok vt -> masked_select d b = Ok vb ->
  vt <> [] -> vb <> [] ->
  Forall (fun x => tlo <= x <= thi) vt ->
  Forall (fun x => blo <= x <= bhi) vb ->
  0 <= tlo -> 0 < blo ->
  exists r mt c,
    classify_target self d t b = Ok r /\
    np_mean vt = FNum mt /\ tlo <= mt <= thi /\
    contrast_ratio (metrics r) = FNum c /\
    tlo / bhi <= c <= thi / blo /\
    verdict r = decision_tree self (FNum c) (FNum mt).
Proof.
  intros Hvt Hvb Hnt Hnb Ht Hb Htlo Hblo.
  destruct (np_mean_bounds tlo thi vt Hnt Ht) as (mt & Emt & Bmt).
  destruct (np_mean_bounds blo bhi vb Hnb Hb) as (mb & Emb & Bmb).
  assert (Hpos : 0 < mb) by lra.
  assert (Hc : contrast_of (np_mean vt) (np_mean vb) = Ok (FNum (mt / mb)))
    by (rewrite Emt, Emb; now apply contrast_of_pos).
  destruct (classify_target_unfold self d t b vt vb _ Hvt Hvb Hc)
    as (r & Hr & Hv & Hcr).
  exists r, mt, (mt / mb).
  split; [exact Hr|]. split; [exact Emt|]. split; [exact Bmt|].
  split; [exact Hcr|].
  split; [apply (quotient_bounds mt mb tlo thi blo bhi); assumption|].
  rewrite <- Emt. exact Hv.
Qed.

Lemma all_equal_bounds (v : Q) (l : list Q) :
  Forall (fun x => x == v) l -> Forall (fun x => v <= x <= v) l.
Proof.
  apply Forall_impl. intros x Hx. rewrite Hx. split; apply Qle_refl.
Qed.

(** X11.  A target at least as polarised as the drone threshold and at
    least twice as polarised as the background is confirmed.  When the
    target mean that [np.mean] returns is at least 0.08 and at least twice
    the background mean it returns, and that one is positive, the verdict is
    DRONE with veto CONFIRM, the confidence being HIGH or MEDIUM. *)
Theorem polarised_target_confirmed
    (d : list (list Q)) (t b : list (list bool)) (vt vb : list Q) (mt mb : Q) :
  masked_select d t = Ok vt -> masked_select d b = Ok vb ->
  np_mean vt = FNum mt -> np_mean vb = FNum mb ->
  0 < mb -> 2 * mb <= mt -> 8 # 100 <= mt ->
  exists r,
    classify_target simulator d t b = Ok r /\
    classification r = DRONE /\ veto_decision r = CONFIRM /\
    (confidence r = HIGH \/ confidence r = MEDIUM).
Proof.
  intros Hvt Hvb Emt Emb Hpos Hratio Hmed.
  assert (Hc : contrast_of (np_mean vt) (np_mean vb) = Ok (FNum (mt / mb)))
    by (rewrite Emt, Emb; now apply contrast_of_pos).
  destruct (classify_target_unfold simulator d t b vt vb _ Hvt Hvb Hc)
    as (r & Hr & Hv & _).
  exists r. split; [exact Hr|].
  rewrite Emt in Hv. unfold verdict, decision_tree in Hv.
  cbn [MIN_CONTRAST_RATIO DRONE_DOLP_HIGH DRONE_DOLP_MED simulator] in Hv.
  assert (E1 : flt (FNum (mt / mb)) (FNum 2) = false).
  { unfold flt. apply Qlt_bool_false_iff.
    apply Qle_shift_div_l; [exact Hpos | exact Hratio]. }
  assert (E3 : fge (FNum mt) (FNum (8 # 100)) = true).
  { unfold fge, fle. apply Qle_bool_iff. exact Hmed. }
  rewrite E1, E3 in Hv.
  destruct (fgt (FNum mt) (FNum (10 # 100))); injection Hv as -> -> ->;
    repeat split; auto.
Qed.

Lemma polarised_target_confirmed_witness :
  exists r,
    classify_target simulator (scene (9 # 100) (25 # 1000))
      target_px background_px = Ok r /\
    classification r = DRONE /\ veto_decision r = CONFIRM /\
    (confidence r = HIGH \/ confidence r = MEDIUM).
Proof.
  apply (polarised_target_confirmed (scene (9 # 100) (25 # 1000))
           target_px background_px [9 # 100] [25 # 1000] _ _
           eq_refl eq_refl eq_refl eq_refl).
  - reflexivity.
  - discriminate.
  - discriminate.
Defined.

(** X12.  The signature that [inject_dolp_signature] writes for a bird
    never reaches the BIRD branches: when every target pixel lies in
    [0.015, 0.028] and every background pixel is 0.025, the contrast ratio
    is at most 1.12 and the verdict is UNKNOWN / LOW /
    INSUFFICIENT_CONTRAST. *)
Theorem bird_signature_insufficient_contrast
    (d : list (list Q)) (t b : list (list bool)) (vt vb : list Q) :
  masked_select d t = Ok vt -> masked_select d b = Ok vb ->
  vt <> [] -> vb <> [] ->
  Forall (fun x => 15 # 1000 <= x <= 28 # 1000) vt ->
  Forall (fun x => x == 25 # 1000) vb ->
  exists r c,
    classify_target simulator d t b = Ok r /\
    contrast_ratio (metrics r) = FNum c /\ c <= 112 # 100 /\
    verdict r = (UNKNOWN, LOW, INSUFFICIENT_CONTRAST).
Proof.
  intros Hvt Hvb Hnt Hnb Ht Hb. apply all_equal_bounds in Hb.
  destruct (classify_target_bounded simulator d t b vt vb
              (15 # 1000) (28 # 1000) (25 # 1000) (25 # 1000)
              Hvt Hvb Hnt Hnb Ht Hb) as (r & mt & c & Hr & _ & Bmt & Hc & Bc & Hv);
    [discriminate | reflexivity |].
  exists r, c. split; [exact Hr|]. split; [exact Hc|].
  assert (H112 : c <= 112 # 100).
  { destruct Bc as [_ Bhi]. eapply Qle_trans; [exact Bhi|]. discriminate. }
  split; [exact H112|].
  rewrite Hv. unfold decision_tree. cbn [MIN_CONTRAST_RATIO simulator].
  assert (E1 : flt (FNum c) (FNum 2) = true).
  { unfold flt. apply Qlt_bool_iff. lra. }
  now rewrite E1.
Qed.

Lemma bird_signature_insufficient_contrast_witness :
  exists r c,
    classify_target simulator (scene (22 # 1000) (25 # 1000))
      target_px background_px = Ok r /\
    contrast_ratio (metrics r) = FNum c /\ c <= 112 # 100 /\
    verdict r = (UNKNOWN, LOW, INSUFFICIENT_CONTRAST).
Proof.
  apply (bird_signature_insufficient_contrast (scene (22 # 1000) (25 # 1000))
           target_px background_px [22 # 1000] [25 # 1000] eq_refl eq_refl).
  - discriminate.
  - discriminate.
  - constructor; [split; discriminate | constructor].
  - constructor; [reflexivity | constructor].
Defined.

(* ------------------------------------------------------------------ *)
(** ** Sign of the contrast ratio *)

Lemma select_row_forall (P : Q -> Prop) (xs : list Q) :
  forall ms vs, Forall P xs -> select_row xs ms = Ok vs -> Forall P vs.
Proof.
  induction xs as [|x xs IH]; intros [|m ms] vs Hall H; simpl in H;
    try discriminate.
  - injection H as <-. constructor.
  - destruct (select_row xs ms) as [r|e] eqn:E; simpl in H; [|discriminate].
    injection H as <-. inversion Hall as [|? ? Hx Hxs]; subst.
    specialize (IH ms r Hxs E). destruct m; [constructor|]; assumption.
Qed.

Lemma masked_select_forall (P : Q -> Prop) (a : list (list Q)) :
  forall mask vs,
    Forall (Forall P) a -> masked_select a mask = Ok vs -> Forall P vs.
Proof.
  induction a as [|row a IH]; intros [|mrow mask] vs Hall H; simpl in H;
    try discriminate.
  - injection H as <-. constructor.
  - destruct (select_row row mrow) as [r1|e] eqn:E1; simpl in H; [|discriminate].
    destruct (masked_select a mask) as [r2|e] eqn:E2; simpl in H; [|discriminate].
    injection H as <-. inversion Hall as [|? ? Hrow Hrest]; subst.
    apply Forall_app. split.
    + exact (select_row_forall P row mrow r1 Hrow E1).
    + exact (IH mask r2 Hrest E2).
Qed.

Lemma Qsum_nonneg (l : list Q) : Forall (fun x => 0 <= x) l -> 0 <= Qsum l.
Proof.
  induction 1 as [|x l Hx _ IH]; unfold Qsum in *; cbn [fold_right]; lra.
Qed.

(** X13.  On a map without negative values the contrast ratio is never
    negative: it is a number >= 0, except that it is NaN when the target
    mask selects no pixel (and the background mean is positive). *)
Theorem contrast_ratio_nonnegative (self : PolarimetrySimulator)
    (d : list (list Q)) (t b : list (list bool)) (r : classification_result) :
  Forall (Forall (fun x => 0 <= x)) d ->
  classify_target self d t b = Ok r ->
  (exists c, contrast_ratio (metrics r) = FNum c /\ 0 <= c) \/
  (contrast_ratio (metrics r) = FNaN /\ masked_select d t = Ok []).
Proof.
  intros Hd Hr. unfold classify_target in Hr.
  destruct (masked_select d t) as [vt|e] eqn:Et; simpl in Hr; [|discriminate].
  destruct (masked_select d b) as [vb|e] eqn:Eb; simpl in Hr; [|discriminate].
  destruct (contrast_of (np_mean vt) (np_mean vb)) as [c|e] eqn:Ec;
    simpl in Hr; [|discriminate].
  destruct (decision_tree self c (np_mean vt)) as [[cls conf] v].
  injection Hr as <-. cbn [metrics contrast_ratio].
  pose proof (masked_select_forall _ d t vt Hd Et) as Hvt.
  unfold contrast_of, fgt, flt in Ec.
  destruct (np_mean vb) as [y|] eqn:Emb.
  - destruct (Qlt_bool 0 y) eqn:Ey.
    + apply Qlt_bool_iff in Ey. unfold true_divide in Ec.
      destruct (Qeq_bool y 0); [discriminate|].
      destruct vt as [|x vt].
      * injection Ec as <-. right. split; reflexivity.
      * cbn [np_mean] in Ec. injection Ec as <-. left. eexists.
        split; [reflexivity|].
        apply Qle_shift_div_l; [exact Ey|]. rewrite Qmult_0_l.
        apply Qle_shift_div_l.
        -- change 0 with (inject_Z 0). rewrite <- Zlt_Qlt. cbn [length]. lia.
        -- rewrite Qmult_0_l. exact (Qsum_nonneg (x :: vt) Hvt).
    + injection Ec as <-. left. exists 0. split; [reflexivity | apply Qle_refl].
  - injection Ec as <-. left. exists 0. split; [reflexivity | apply Qle_refl].
Qed.

Lemma contrast_ratio_nonnegative_witness :
  exists r,
    classify_target simulator (scene (9 # 100) (3 # 100))
      target_px background_px = Ok r /\
    ((exists c, contrast_ratio (metrics r) = FNum c /\ 0 <= c) \/
     (contrast_ratio (metrics r) = FNaN /\
      masked_select (scene (9 # 100) (3 # 100)) target_px = Ok [])).
Proof.
  eexists. split; [reflexivity|].
  apply (contrast_ratio_nonnegative simulator (scene (9 # 100) (3 # 100))
           target_px background_px).
  - repeat constructor; discriminate.
  - reflexivity.
Defined.

End PolarimetryFacts.

(* ================================================================== *)
(** * Properties of the slew-to-cue geometry *)
(* ================================================================== *)

Module SlewToCueFacts.

Import SlewToCue.
Local Open Scope R_scope.

(** ** Degrees, arctan2, clip and modulo *)

Lemma degrees_0 : np_degrees 0 = 0.
Proof. unfold np_degrees. ring. Qed.

Lemma degrees_PI : np_degrees PI = 180.
Proof. unfold np_degrees. field. apply PI_neq0. Qed.

Lemma degrees_half_PI : np_degrees (PI / 2) = 90.
Proof. unfold np_degrees. field. apply PI_neq0. Qed.

Lemma degrees_opp (x : R) : np_degrees (- x) = - np_degrees x.
Proof. unfold np_degrees. ring. Qed.

Lemma degrees_scale_pos : 0 < 180 / PI.
Proof. apply Rdiv_lt_0_compat; [lra | apply PI_RGT_0]. Qed.

Lemma degrees_le (a b : R) : a <= b -> np_degrees a <= np_degrees b.
Proof.
  intros Hab. unfold np_degrees.
  apply Rmult_le_compat_r; [apply Rlt_le, degrees_scale_pos | assumption].
Qed.

Lemma degrees_lt (a b : R) : a < b -> np_degrees a < np_degrees b.
Proof.
  intros Hab. unfold np_degrees.
  apply Rmult_lt_compat_r; [apply degrees_scale_pos | assumption].
Qed.

Lemma atan_nonpos (x : R) : x <= 0 -> atan x <= 0.
Proof.
  intros [Hlt | ->].
  - rewrite <- atan_0. apply Rlt_le, atan_increasing, Hlt.
  - rewrite atan_0. apply Rle_refl.
Qed.

Lemma atan_pos (x : R) : 0 < x -> 0 < atan x.
Proof. intros Hx. rewrite <- atan_0. now apply atan_increasing. Qed.

(** [np.arctan2] lands in (-pi, pi]. *)
Lemma arctan2_range (y x : R) : - PI < np_arctan2 y x <= PI.
Proof.
  pose proof PI_RGT_0 as Hpi. unfold np_arctan2.
  destruct (total_order_T 0 x) as [[Hx | Hx] | Hx].
  - pose proof (atan_bound (y / x)). lra.
  - destruct (total_order_T 0 y) as [[Hy | Hy] | Hy]; lra.
  - pose proof (atan_bound (y / x)) as Hb.
    destruct (Rle_dec 0 y) as [Hy | Hy].
    + assert (Hq : y / x <= 0).
      { pose proof (Rinv_lt_0_compat x Hx). unfold Rdiv. nra. }
      pose proof (atan_nonpos _ Hq). lra.
    + assert (Hq : 0 < y / x).
      { pose proof (Rinv_lt_0_compat x Hx). unfold Rdiv. nra. }
      pose proof (atan_pos _ Hq). lra.
Qed.

(** With a non-negative abscissa the angle lands in [-pi/2, pi/2]. *)
Lemma arctan2_right_half (y x : R) :
  0 <= x -> - (PI / 2) <= np_arctan2 y x <= PI / 2.
Proof.
  intros Hx0. pose proof PI_RGT_0 as Hpi. unfold np_arctan2.
  destruct (total_order_T 0 x) as [[Hx | Hx] | Hx].
  - pose proof (atan_bound (y / x)). lra.
  - destruct (total_order_T 0 y) as [[Hy | Hy] | Hy]; lra.
  - lra.
Qed.

Lemma arctan2_origin : np_arctan2 0 0 = 0.
Proof.
  unfold np_arctan2.
  destruct (total_order_T 0 0) as [[H | H] | H]; lra.
Qed.

Lemma clip_range (x lo hi : R) : lo <= hi -> lo <= np_clip x lo hi <= hi.
Proof.
  intros Hlh. unfold np_clip, Rmin, Rmax.
  destruct (Rle_dec x lo); destruct (Rle_dec _ hi); lra.
Qed.

Lemma mod_range (x m : R) : 0 < m -> 0 <= py_mod x m < m.
Proof.
  intros Hm. unfold py_mod.
  destruct (base_Int_part (x / m)) as [Hlo Hhi].
  set (k := IZR (Int_part (x / m))) in *.
  assert (Hx : x = m * (x / m)) by (field; lra).
  split.
  - assert (m * k <= m * (x / m)) by (apply Rmult_le_compat_l; lra). lra.
  - assert (m * (x / m) < m * (k + 1)) by (apply Rmult_lt_compat_l; lra). lra.
Qed.

(** ** Coordinate transforms *)

(** Over the reals the normalisation is right: whatever the East / North /
    Up offsets, the azimuth lies in [0, 360) and the elevation in
    [-90, 90].  (On binary64 numbers the azimuth reaches 360.0; see the
    binary64 embedding.) *)
Lemma enu_to_aer_normalized (self : SlewToCueController)
    (east_m north_m up_m : R) :
  let '(azimuth_deg, elevation_deg, _) :=
    enu_to_aer self east_m north_m up_m in
  0 <= azimuth_deg < 360 /\ -90 <= elevation_deg <= 90.
Proof.
  unfold enu_to_aer. split.
  - destruct (arctan2_range east_m north_m) as [Hlo Hhi].
    apply degrees_lt in Hlo. apply degrees_le in Hhi.
    rewrite degrees_opp, degrees_PI in Hlo. rewrite degrees_PI in Hhi.
    destruct (Rlt_dec (np_degrees (np_arctan2 east_m north_m)) 0); lra.
  - destruct (arctan2_right_half up_m (sqrt (east_m ^ 2 + north_m ^ 2))
                (sqrt_pos _)) as [Hlo Hhi].
    apply degrees_le in Hlo, Hhi.
    rewrite degrees_opp, degrees_half_PI in Hlo.
    rewrite degrees_half_PI in Hhi. lra.
Qed.

(** C8.  A target at the turret's own latitude, longitude and altitude is
    mapped to azimuth 0, elevation 0 and range 0; the transform has no error
    path. *)
Theorem geodetic_to_aer_at_origin (self : SlewToCueController) :
  geodetic_to_aer self (turret_lat self) (turret_lon self) (turret_alt_m self)
  = (0, 0, 0).
Proof.
  unfold geodetic_to_aer, geodetic_to_enu, enu_to_aer.
  rewrite !Rminus_diag, !Rmult_0_r.
  replace (0 ^ 2 + 0 ^ 2 + 0 ^ 2) with 0 by ring.
  replace (0 ^ 2 + 0 ^ 2) with 0 by ring.
  rewrite sqrt_0, arctan2_origin, degrees_0.
  destruct (Rlt_dec 0 0) as [H | H]; [lra | reflexivity].
Qed.

(** ** Angular uncertainty *)

Lemma true_divide_nonzero (a b : scalar) :
  value b <> 0 -> true_divide a b = Returns (Finite (value a / value b)).
Proof.
  intros Hb. unfold true_divide.
  destruct (Req_dec_T (value b) 0) as [E | E]; [contradiction | reflexivity].
Qed.




(** ** Spiral search pattern *)

Lemma combine_map_self {X Y : Type} (g : X -> Y) (l : list X) :
  combine (map g l) l = map (fun x => (g x, x)) l.
Proof. induction l as [|x l IH]; simpl; [reflexivity | now rewrite IH]. Qed.

(** The pattern, sample by sample. *)
Lemma pattern_as_map (self : SlewToCueController) (cp ct radius : R) (n : nat) :
  generate_spiral_search_pattern self cp ct radius n
  = (cp, ct)
      :: map (fun i =>
                spiral_point cp ct (radius * theta_at n i / (4 * PI))
                             (theta_at n i))
             (seq 0 n).
Proof.
  unfold generate_spiral_search_pattern, spiral_r, spiral_theta, np_linspace.
  f_equal. rewrite combine_map_self, !map_map. reflexivity.
Qed.








(** Every point appended by the loop is within the turret's ranges. *)
Lemma spiral_point_in_range (cp ct r_i theta_i : R) :
  let p := spiral_point cp ct r_i theta_i in
  0 <= fst p < 360 /\ -90 <= snd p <= 90.
Proof.
  unfold spiral_point. cbn [fst snd]. split.
  - apply mod_range. lra.
  - apply clip_range. lra.
Qed.

(** Over the reals the wrapping is right: in every pattern each point after
    the first has pan in [0, 360) and tilt in [-90, 90], and the first point
    is the centre as given.  Hence for the centre (400, 100) the first point
    is outside both ranges while every later point is inside them.  (On
    binary64 numbers a wrapped pan reaches 360.0; see the binary64
    embedding.) *)
Lemma spiral_pattern_ranges (self : SlewToCueController) :
  (forall cp ct radius n p,
     In p (tl (generate_spiral_search_pattern self cp ct radius n)) ->
     0 <= fst p < 360 /\ -90 <= snd p <= 90) /\
  (forall cp ct radius n,
     hd_error (generate_spiral_search_pattern self cp ct radius n)
     = Some (cp, ct)) /\
  (exists cp ct,
     ~ 0 <= cp < 360 /\ ~ -90 <= ct <= 90 /\
     forall radius n,
       hd_error (generate_spiral_search_pattern self cp ct radius n)
         = Some (cp, ct) /\
       forall p,
         In p (tl (generate_spiral_search_pattern self cp ct radius n)) ->
         0 <= fst p < 360 /\ -90 <= snd p <= 90).
Proof.
  assert (Hlater : forall cp ct radius n p,
            In p (tl (generate_spiral_search_pattern self cp ct radius n)) ->
            0 <= fst p < 360 /\ -90 <= snd p <= 90).
  { intros cp ct radius n p Hin. rewrite pattern_as_map in Hin.
    cbn [tl] in Hin. apply in_map_iff in Hin as (i & <- & _).
    apply spiral_point_in_range. }
  split; [exact Hlater|]. split; [reflexivity|].
  exists 400, 100. split; [lra|]. split; [lra|].
  intros radius n. split; [reflexivity|]. apply Hlater.
Qed.

Lemma spiral_pattern_ranges_witness :
  0 <= fst (nth 0 (tl (generate_spiral_search_pattern turret 400 100 2 3))
                (0, 0)) < 360 /\
  -90 <= snd (nth 0 (tl (generate_spiral_search_pattern turret 400 100 2 3))
                  (0, 0)) <= 90.
Proof.
  apply (proj1 (spiral_pattern_ranges turret) 400 100 2 3%nat).
  apply nth_In. rewrite pattern_as_map. cbn [tl].
  rewrite length_map, length_seq. lia.
Defined.

(* ------------------------------------------------------------------ *)
(** ** Further properties of the coordinate transforms *)

Lemma radians_degrees (x : R) : np_radians (np_degrees x) = x.
Proof. unfold np_radians, np_degrees. field. apply PI_neq0. Qed.

Lemma degrees_radians (x : R) : np_degrees (np_radians x) = x.
Proof. unfold np_radians, np_degrees. field. apply PI_neq0. Qed.

Lemma radians_plus (x y : R) : np_radians (x + y) = np_radians x + np_radians y.
Proof. unfold np_radians. ring. Qed.

Lemma radians_360 : np_radians 360 = 2 * INR 1 * PI.
Proof. unfold np_radians. simpl. field. Qed.

Lemma sqrt_pow2_pos (x : R) : 0 <= x -> sqrt (x ^ 2) = x.
Proof. intros Hx. replace (x ^ 2) with (x * x) by ring. now apply sqrt_square. Qed.

Lemma sqrt_pow2_neg (x : R) : x <= 0 -> sqrt (x ^ 2) = - x.
Proof.
  intros Hx. replace (x ^ 2) with ((- x) * (- x)) by ring.
  apply sqrt_square. lra.
Qed.

(** The hypotenuse, with the abscissa factored out. *)
Lemma hypot_factor (y x : R) :
  x <> 0 -> sqrt (x ^ 2 + y ^ 2) = Rabs x * sqrt (1 + (y / x)²).
Proof.
  intros Hx.
  replace (x ^ 2 + y ^ 2) with (Rsqr x * (1 + (y / x)²))
    by (unfold Rsqr; field; exact Hx).
  rewrite sqrt_mult_alt by apply Rle_0_sqr.
  now rewrite sqrt_Rsqr_abs.
Qed.

Lemma sqrt_one_plus_sqr_pos (t : R) : 0 < sqrt (1 + t²).
Proof. apply sqrt_lt_R0. pose proof (Rle_0_sqr t). lra. Qed.

(** [np.arctan2(y, x)] is the polar angle of the point (x, y): multiplied
    by the distance to the origin, its cosine and sine give back [x] and
    [y]. *)
Lemma arctan2_polar (y x : R) :
  sqrt (x ^ 2 + y ^ 2) * cos (np_arctan2 y x) = x /\
  sqrt (x ^ 2 + y ^ 2) * sin (np_arctan2 y x) = y.
Proof.
  unfold np_arctan2.
  destruct (total_order_T 0 x) as [[Hx | Hx] | Hx].
  - rewrite hypot_factor by lra. rewrite Rabs_pos_eq by lra.
    rewrite cos_atan, sin_atan.
    pose proof (sqrt_one_plus_sqr_pos (y / x)) as Hs.
    split; field; lra.
  - subst x. replace (0 ^ 2 + y ^ 2) with (y ^ 2) by ring.
    destruct (total_order_T 0 y) as [[Hy | Hy] | Hy].
    + rewrite sqrt_pow2_pos by lra. rewrite cos_PI2, sin_PI2. split; ring.
    + subst y. replace (0 ^ 2) with 0 by ring. rewrite sqrt_0. split; ring.
    + rewrite sqrt_pow2_neg by lra.
      rewrite cos_neg, sin_neg, cos_PI2, sin_PI2. split; ring.
  - rewrite hypot_factor by lra. rewrite Rabs_left by lra.
    pose proof (sqrt_one_plus_sqr_pos (y / x)) as Hs.
    destruct (Rle_dec 0 y) as [Hy | Hy].
    + rewrite neg_cos, neg_sin, cos_atan, sin_atan. split; field; lra.
    + rewrite cos_minus, sin_minus, cos_PI, sin_PI, cos_atan, sin_atan.
      split; field; lra.
Qed.

(** X1.  [enu_to_aer] returns the spherical coordinates of the point: from
    the azimuth, elevation and range it returns, the usual formulas give
    back the East, North and Up offsets. *)
Theorem enu_to_aer_spherical (self : SlewToCueController)
    (east_m north_m up_m : R) :
  let '(azimuth_deg, elevation_deg, range_m) :=
    enu_to_aer self east_m north_m up_m in
  let az := np_radians azimuth_deg in
  let el := np_radians elevation_deg in
  east_m = range_m * cos el * sin az /\
  north_m = range_m * cos el * cos az /\
  up_m = range_m * sin el.
Proof.
  unfold enu_to_aer. cbv zeta.
  set (h := sqrt (east_m ^ 2 + north_m ^ 2)).
  assert (Hh : 0 <= h) by apply sqrt_pos.
  assert (Hh2 : h ^ 2 = east_m ^ 2 + north_m ^ 2).
  { unfold h. replace (sqrt (east_m ^ 2 + north_m ^ 2) ^ 2)
      with (sqrt (east_m ^ 2 + north_m ^ 2) * sqrt (east_m ^ 2 + north_m ^ 2))
      by ring.
    apply sqrt_sqrt. pose proof (pow2_ge_0 east_m). pose proof (pow2_ge_0 north_m).
    lra. }
  replace (east_m ^ 2 + north_m ^ 2 + up_m ^ 2) with (h ^ 2 + up_m ^ 2) by lra.
  destruct (arctan2_polar up_m h) as [Ec Es].
  destruct (arctan2_polar east_m north_m) as [Ac As].
  replace (north_m ^ 2 + east_m ^ 2) with (east_m ^ 2 + north_m ^ 2) in Ac, As
    by ring.
  fold h in Ac, As.
  rewrite radians_degrees.
  set (a := np_arctan2 east_m north_m) in *.
  assert (Haz : sin (np_radians (if Rlt_dec (np_degrees a) 0
                                 then np_degrees a + 360 else np_degrees a))
                = sin a /\
                cos (np_radians (if Rlt_dec (np_degrees a) 0
                                 then np_degrees a + 360 else np_degrees a))
                = cos a).
  { destruct (Rlt_dec (np_degrees a) 0).
    - rewrite radians_plus, radians_degrees, radians_360.
      now rewrite sin_period, cos_period.
    - now rewrite radians_degrees. }
  destruct Haz as [-> ->].
  rewrite Ec. repeat split; congruence.
Qed.

Lemma enu_due_north (lat lon alt fov d h : R) :
  geodetic_to_enu (init lat lon alt fov)
    (lat + np_degrees (d / 6378137)) lon (alt + h) = (0, d, h).
Proof.
  unfold geodetic_to_enu, init. cbn [turret_lat turret_lon turret_alt_m R_EARTH].
  rewrite radians_plus, radians_degrees. f_equal; [f_equal|]; try ring. field.
Qed.

Lemma enu_due_east (lat lon alt fov d h : R) :
  cos (np_radians lat) <> 0 ->
  geodetic_to_enu (init lat lon alt fov)
    lat (lon + np_degrees (d / (6378137 * cos (np_radians lat)))) (alt + h)
  = (d, 0, h).
Proof.
  intros Hc. unfold geodetic_to_enu, init.
  cbn [turret_lat turret_lon turret_alt_m R_EARTH].
  rewrite radians_plus, radians_degrees. f_equal; [f_equal|]; try ring.
  field. exact Hc.
Qed.

Lemma arctan2_right (y x : R) : 0 < x -> np_arctan2 y x = atan (y / x).
Proof.
  intros Hx. unfold np_arctan2.
  destruct (total_order_T 0 x) as [[H | H] | H]; [reflexivity | lra | lra].
Qed.

Lemma arctan2_up (y : R) : 0 < y -> np_arctan2 y 0 = PI / 2.
Proof.
  intros Hy. unfold np_arctan2.
  destruct (total_order_T 0 0) as [[H | H] | H]; try lra.
  destruct (total_order_T 0 y) as [[H' | H'] | H']; [reflexivity | lra | lra].
Qed.

Lemma aer_due_north (lat lon alt fov d h : R) :
  0 < d ->
  geodetic_to_aer (init lat lon alt fov)
    (lat + np_degrees (d / 6378137)) lon (alt + h)
  = (0, np_degrees (atan (h / d)), sqrt (d ^ 2 + h ^ 2)).
Proof.
  intros Hd. unfold geodetic_to_aer. rewrite enu_due_north.
  unfold enu_to_aer.
  replace (0 ^ 2 + d ^ 2 + h ^ 2) with (d ^ 2 + h ^ 2) by ring.
  replace (0 ^ 2 + d ^ 2) with (d ^ 2) by ring.
  rewrite sqrt_pow2_pos by lra.
  rewrite !arctan2_right by exact Hd.
  replace (0 / d) with 0 by (field; lra).
  rewrite atan_0, degrees_0.
  destruct (Rlt_dec 0 0) as [H | H]; [lra | reflexivity].
Qed.

(** X2.  The module's first test case, for any distance: a target [d]
    metres due north of the turret and [h] metres above it is seen at
    azimuth 0, elevation atan(h / d) and range sqrt(d^2 + h^2). *)
Theorem target_due_north (lat lon alt fov d h : R) :
  0 < d ->
  geodetic_to_aer (init lat lon alt fov)
    (lat + np_degrees (d / 6378137)) lon (alt + h)
  = (0, np_degrees (atan (h / d)), sqrt (d ^ 2 + h ^ 2)).
Proof. apply aer_due_north. Qed.


Lemma target_due_north_witness :
  geodetic_to_aer (init 0 0 50 50) (0 + np_degrees (1000 / 6378137)) 0 (50 + 100)
  = (0, np_degrees (atan (100 / 1000)), sqrt (1000 ^ 2 + 100 ^ 2)).
Proof. apply (target_due_north 0 0 50 50 1000 100). lra. Defined.

(** X3.  The module's second test case, for any distance: away from the
    poles, a target [d] metres due east of the turret and [h] metres above
    it is seen at azimuth 90, elevation atan(h / d) and range
    sqrt(d^2 + h^2). *)
Theorem target_due_east (lat lon alt fov d h : R) :
  0 < d -> cos (np_radians lat) <> 0 ->
  geodetic_to_aer (init lat lon alt fov)
    lat (lon + np_degrees (d / (6378137 * cos (np_radians lat)))) (alt + h)
  = (90, np_degrees (atan (h / d)), sqrt (d ^ 2 + h ^ 2)).
Proof.
  intros Hd Hc. unfold geodetic_to_aer. rewrite enu_due_east by exact Hc.
  unfold enu_to_aer.
  replace (d ^ 2 + 0 ^ 2 + h ^ 2) with (d ^ 2 + h ^ 2) by ring.
  replace (d ^ 2 + 0 ^ 2) with (d ^ 2) by ring.
  rewrite sqrt_pow2_pos by lra.
  rewrite arctan2_up by exact Hd. rewrite arctan2_right by exact Hd.
  rewrite degrees_half_PI.
  destruct (Rlt_dec 90 0) as [H | H]; [lra | reflexivity].
Qed.

Lemma target_due_east_witness :
  geodetic_to_aer (init 0 0 50 50)
    0 (0 + np_degrees (500 / (6378137 * cos (np_radians 0)))) (50 + 50)
  = (90, np_degrees (atan (50 / 500)), sqrt (500 ^ 2 + 50 ^ 2)).
Proof.
  apply (target_due_east 0 0 50 50 500 50); [lra|].
  unfold np_radians. rewrite Rmult_0_l, cos_0. lra.
Defined.

(* ------------------------------------------------------------------ *)
(** ** Further properties of the search cone *)

Lemma angular_uncertainty_positive_range (self : SlewToCueController)
    (range_m range_uncertainty_m : scalar) :
  value range_m <> 0 ->
  calculate_angular_uncertainty self range_m range_uncertainty_m
  = Returns (Finite (np_degrees
                       (atan (value range_uncertainty_m / value range_m)))).
Proof.
  intros Hr. unfold calculate_angular_uncertainty.
  now rewrite true_divide_nonzero.
Qed.

(** X4.  For a positive uncertainty the search cone narrows with distance:
    at positive ranges the half-angle is strictly between 0 and 90 degrees,
    and a larger range gives a strictly smaller half-angle. *)
Theorem angular_uncertainty_decreasing (self : SlewToCueController)
    (near far range_uncertainty_m : scalar) :
  0 < value range_uncertainty_m -> 0 < value near < value far ->
  exists angle_near angle_far,
    calculate_angular_uncertainty self near range_uncertainty_m
      = Returns (Finite angle_near) /\
    calculate_angular_uncertainty self far range_uncertainty_m
      = Returns (Finite angle_far) /\
    0 < angle_far < angle_near /\ angle_near < 90.
Proof.
  intros Hu [Hn Hf].
  exists (np_degrees (atan (value range_uncertainty_m / value near))),
         (np_degrees (atan (value range_uncertainty_m / value far))).
  split; [apply angular_uncertainty_positive_range; lra|].
  split; [apply angular_uncertainty_positive_range; lra|].
  assert (Hq : 0 < value range_uncertainty_m / value far
               < value range_uncertainty_m / value near).
  { split.
    - apply Rdiv_lt_0_compat; lra.
    - unfold Rdiv. apply Rmult_lt_compat_l; [exact Hu|].
      apply Rinv_lt_contravar; [nra | lra]. }
  destruct Hq as [Hq0 Hq1].
  pose proof (atan_pos _ Hq0) as Ha0.
  pose proof (atan_increasing _ _ Hq1) as Ha1.
  destruct (atan_bound (value range_uncertainty_m / value near)) as [_ Hb].
  apply degrees_lt in Ha0, Ha1, Hb.
  rewrite degrees_0 in Ha0. rewrite degrees_half_PI in Hb. lra.
Qed.

Lemma angular_uncertainty_decreasing_witness :
  exists angle_near angle_far,
    calculate_angular_uncertainty turret (NpFloat64 500) (PyFloat 10)
      = Returns (Finite angle_near) /\
    calculate_angular_uncertainty turret (NpFloat64 1000) (PyFloat 10)
      = Returns (Finite angle_far) /\
    0 < angle_far < angle_near /\ angle_near < 90.
Proof.
  apply (angular_uncertainty_decreasing turret (NpFloat64 500)
           (NpFloat64 1000) (PyFloat 10)); simpl; lra.
Defined.

(** With a numpy range the division never raises; unless range and
    uncertainty are both zero its result, once through arctan and degrees,
    is a finite angle. *)
Lemma angular_uncertainty_numpy (self : SlewToCueController)
    (range_m : R) (u : scalar) :
  value u <> 0 \/ range_m <> 0 ->
  exists angle,
    calculate_angular_uncertainty self (NpFloat64 range_m) u
    = Returns (Finite angle).
Proof.
  intros Hnz. destruct (Req_dec_T range_m 0) as [Hr | Hr].
  - subst range_m. destruct Hnz as [Hu | Hr]; [|lra].
    unfold calculate_angular_uncertainty, true_divide. cbn [value].
    destruct (Req_dec_T 0 0) as [_ | E]; [|lra].
    destruct (total_order_T 0 (value u)) as [[H | H] | H]; try lra;
      destruct u; cbn [x_arctan x_degrees]; eauto.
  - eexists. apply angular_uncertainty_positive_range. exact Hr.
Qed.

Lemma angular_uncertainty_nan (self : SlewToCueController) (u : scalar) :
  value u = 0 ->
  calculate_angular_uncertainty self (NpFloat64 0) u = Returns NaN.
Proof.
  intros Hu. unfold calculate_angular_uncertainty, true_divide. cbn [value].
  destruct (Req_dec_T 0 0) as [_ | E]; [|lra].
  destruct (total_order_T 0 (value u)) as [[H | H] | H]; try lra.
  destruct u; reflexivity.
Qed.

(** ** Properties of [radar_track_to_turret_command] *)

Lemma azimuth_normalized (e n : R) :
  0 <= (if Rlt_dec (np_degrees (np_arctan2 e n)) 0
        then np_degrees (np_arctan2 e n) + 360
        else np_degrees (np_arctan2 e n)) < 360.
Proof.
  destruct (arctan2_range e n) as [Hlo Hhi].
  apply degrees_lt in Hlo. apply degrees_le in Hhi.
  rewrite degrees_opp, degrees_PI in Hlo. rewrite degrees_PI in Hhi.
  destruct (Rlt_dec (np_degrees (np_arctan2 e n)) 0); lra.
Qed.

Lemma elevation_bounded (u x : R) :
  0 <= x -> -90 <= np_degrees (np_arctan2 u x) <= 90.
Proof.
  intros Hx. destruct (arctan2_right_half u x Hx) as [Hlo Hhi].
  apply degrees_le in Hlo, Hhi.
  rewrite degrees_opp, degrees_half_PI in Hlo.
  rewrite degrees_half_PI in Hhi. lra.
Qed.

Lemma geodetic_to_aer_ranges (self : SlewToCueController)
    (lat lon alt az el rng : R) :
  geodetic_to_aer self lat lon alt = (az, el, rng) ->
  0 <= az < 360 /\ -90 <= el <= 90 /\ 0 <= rng.
Proof.
  unfold geodetic_to_aer, geodetic_to_enu, enu_to_aer.
  intros E. injection E as <- <- <-.
  split; [apply azimuth_normalized|].
  split; [apply elevation_bounded, sqrt_pos | apply sqrt_pos].
Qed.

Lemma x_clip_double_range (angle lo hi : R) :
  lo <= hi ->
  exists radius,
    x_clip (x_double (Finite angle)) lo hi = Num radius /\ lo <= radius <= hi.
Proof.
  intros Hlh. eexists. split; [reflexivity|]. now apply clip_range.
Qed.

Lemma spiral_of_num (self : SlewToCueController) (cp ct radius : R) (n : nat) :
  0 <= cp <= 360 -> -90 <= ct <= 90 ->
  length (spiral_of self cp ct (Num radius) n) = S n /\
  hd_error (spiral_of self cp ct (Num radius) n) = Some (Num cp, Num ct) /\
  Forall within_turret_ranges (spiral_of self cp ct (Num radius) n).
Proof.
  intros Hp Ht. unfold spiral_of. rewrite pattern_as_map. cbn [map fst snd].
  split; [|split].
  - cbn [length]. now rewrite !length_map, length_seq.
  - reflexivity.
  - constructor; [exact (conj Hp Ht)|].
    apply Forall_forall. intros p Hin.
    apply in_map_iff in Hin as (q & <- & Hq).
    apply in_map_iff in Hq as (i & <- & _).
    destruct (spiral_point_in_range cp ct
                (radius * theta_at n i / (4 * PI)) (theta_at n i))
      as [Hpan Htilt].
    split; [lra | exact Htilt].
Qed.

(** X5.  A command that is returned is well formed.  For a track that
    carries latitude, longitude and altitude, and whose uncertainty is not
    zero, every command returned has for pan and tilt the azimuth and
    elevation of the target, within the closed ranges [0, 360] and
    [-90, 90]; its search radius is a number between 0.5 and the
    controller's maximum; and its search pattern has 21 points, starts at
    (pan, tilt) and stays within the closed pan and tilt ranges at every
    point, the first included. *)
Theorem turret_command_well_formed (self : SlewToCueController)
    (now : String.string) (track : radar_track) (lat lon alt : R)
    (c : turret_command) :
  trk_latitude track = Some lat ->
  trk_longitude track = Some lon ->
  trk_altitude_m track = Some alt ->
  (forall u, trk_uncertainty_m track = Some u -> value u <> 0) ->
  1 / 2 <= max_search_radius_deg self ->
  radar_track_to_turret_command self now track = Command c ->
  (cmd_pan_deg c, cmd_tilt_deg c, cmd_radar_range_m c)
    = geodetic_to_aer self lat lon alt /\
  cmd_radar_azimuth_deg c = cmd_pan_deg c /\
  cmd_radar_elevation_deg c = cmd_tilt_deg c /\
  0 <= cmd_pan_deg c <= 360 /\ -90 <= cmd_tilt_deg c <= 90 /\
  (exists radius,
     cmd_search_radius_deg c = Num radius /\
     1 / 2 <= radius <= max_search_radius_deg self) /\
  length (cmd_search_pattern c) = 21%nat /\
  hd_error (cmd_search_pattern c)
    = Some (Num (cmd_pan_deg c), Num (cmd_tilt_deg c)) /\
  Forall within_turret_ranges (cmd_search_pattern c).
Proof.
  intros Hlat Hlon Halt Hunc Hmax.
  unfold radar_track_to_turret_command. rewrite Hlat, Hlon, Halt.
  destruct (geodetic_to_aer self lat lon alt) as [[az el] rng] eqn:E.
  destruct (geodetic_to_aer_ranges self lat lon alt az el rng E)
    as (Haz & Hel & Hrng).
  cbn [aer_to_turret_command].
  set (u := match trk_uncertainty_m track with
            | Some u => u
            | None => PyFloat 10
            end).
  assert (Hu : value u <> 0).
  { subst u. destruct (trk_uncertainty_m track) as [u0|] eqn:Eu.
    - now apply Hunc.
    - simpl. lra. }
  destruct (angular_uncertainty_numpy self rng u (or_introl Hu))
    as [angle Hangle].
  rewrite Hangle.
  destruct (x_clip_double_range angle (1 / 2) (max_search_radius_deg self) Hmax)
    as (radius & Hclip & Hradius).
  rewrite Hclip.
  assert (Haz' : 0 <= az <= 360) by lra.
  destruct (spiral_of_num self az el radius default_num_points Haz' Hel)
    as (Hlen & Hhd & Hall).
  intros Hc. injection Hc as <-.
  cbn [cmd_pan_deg cmd_tilt_deg cmd_radar_range_m cmd_radar_azimuth_deg
       cmd_radar_elevation_deg cmd_search_radius_deg cmd_search_pattern].
  split; [reflexivity|]. split; [reflexivity|]. split; [reflexivity|].
  split; [exact Haz'|]. split; [exact Hel|].
  split; [exists radius; split; [reflexivity | exact Hradius]|].
  split; [exact Hlen|]. split; [exact Hhd | exact Hall].
Qed.

Lemma turret_command_well_formed_witness :
  exists c,
    radar_track_to_turret_command turret "2026-01-11T00:00:00"%string
      (track_at 1 2 150) = Command c /\
    0 <= cmd_pan_deg c <= 360 /\ -90 <= cmd_tilt_deg c <= 90 /\
    length (cmd_search_pattern c) = 21%nat /\
    Forall within_turret_ranges (cmd_search_pattern c).
Proof.
  assert (Hret : exists c,
            radar_track_to_turret_command turret "2026-01-11T00:00:00"%string
              (track_at 1 2 150) = Command c).
  { unfold radar_track_to_turret_command. cbn [track_at trk_latitude
      trk_longitude trk_altitude_m trk_uncertainty_m trk_target_id].
    destruct (geodetic_to_aer turret 1 2 150) as [[az el] rng].
    cbn [aer_to_turret_command].
    destruct (angular_uncertainty_numpy turret rng (PyFloat 10)) as [q Hq].
    { left. simpl. lra. }
    rewrite Hq. eexists. reflexivity. }
  destruct Hret as [c Hc]. exists c. split; [exact Hc|].
  destruct (turret_command_well_formed turret "2026-01-11T00:00:00"%string
              (track_at 1 2 150) 1 2 150 c eq_refl eq_refl eq_refl)
    as (_ & _ & _ & Hpan & Htilt & _ & Hlen & _ & Hall).
  - intros u Hu. discriminate Hu.
  - simpl. lra.
  - exact Hc.
  - repeat split; try assumption; first [apply Hpan | apply Htilt].
Defined.

Lemma enu_at_turret (self : SlewToCueController) :
  geodetic_to_enu self (turret_lat self) (turret_lon self) (turret_alt_m self)
  = (0, 0, 0).
Proof.
  unfold geodetic_to_enu. rewrite !Rminus_diag, !Rmult_0_r. reflexivity.
Qed.

Lemma enu_to_aer_zero (self : SlewToCueController) :
  enu_to_aer self 0 0 0 = (0, 0, 0).
Proof.
  unfold enu_to_aer.
  replace (0 ^ 2 + 0 ^ 2 + 0 ^ 2) with 0 by ring.
  replace (0 ^ 2 + 0 ^ 2) with 0 by ring.
  rewrite sqrt_0, arctan2_origin, degrees_0.
  destruct (Rlt_dec 0 0) as [H | H]; [lra | reflexivity].
Qed.

Lemma angular_uncertainty_numpy_returns (self : SlewToCueController)
    (range_m : R) (u : scalar) :
  exists q, calculate_angular_uncertainty self (NpFloat64 range_m) u = Returns q.
Proof.
  unfold calculate_angular_uncertainty, true_divide. cbn [value].
  destruct (Req_dec_T range_m 0); destruct u; eauto.
Qed.

Lemma angular_uncertainty_zero_range (self : SlewToCueController) (u : scalar) :
  0 < value u ->
  calculate_angular_uncertainty self (NpFloat64 0) u = Returns (Finite 90).
Proof.
  intros Hu. unfold calculate_angular_uncertainty, true_divide. cbn [value].
  destruct (Req_dec_T 0 0) as [_ | E]; [|lra].
  destruct (total_order_T 0 (value u)) as [[H | H] | H]; try lra.
  destruct u; cbn [x_arctan x_degrees]; now rewrite degrees_half_PI.
Qed.

(** X6.  The degenerate cue is not caught.  For a track at the turret's own
    position the command is returned with pan, tilt and range 0.  A zero
    uncertainty makes the search radius NaN, and the pattern is then the
    centre followed by 20 points (NaN, NaN); a positive uncertainty (the
    default 10 m included) gives the controller's maximum radius. *)
Theorem turret_command_at_turret (self : SlewToCueController)
    (now : String.string) (track : radar_track) :
  trk_latitude track = Some (turret_lat self) ->
  trk_longitude track = Some (turret_lon self) ->
  trk_altitude_m track = Some (turret_alt_m self) ->
  1 / 2 <= max_search_radius_deg self <= 180 ->
  exists c,
    radar_track_to_turret_command self now track = Command c /\
    (cmd_pan_deg c, cmd_tilt_deg c, cmd_radar_range_m c) = (0, 0, 0) /\
    (forall u, trk_uncertainty_m track = Some u -> value u = 0 ->
       cmd_search_radius_deg c = NotNum /\
       cmd_search_pattern c = (Num 0, Num 0) :: repeat (NotNum, NotNum) 20) /\
    ((forall u, trk_uncertainty_m track = Some u -> 0 < value u) ->
       cmd_search_radius_deg c = Num (max_search_radius_deg self)).
Proof.
  intros Hlat Hlon Halt [Hmin Hmax].
  unfold radar_track_to_turret_command. rewrite Hlat, Hlon, Halt.
  unfold geodetic_to_aer. rewrite enu_at_turret, enu_to_aer_zero.
  cbn [aer_to_turret_command].
  set (u := match trk_uncertainty_m track with
            | Some u => u
            | None => PyFloat 10
            end).
  destruct (angular_uncertainty_numpy_returns self 0 u) as [q Hq]. rewrite Hq.
  eexists. split; [reflexivity|]. split; [reflexivity|].
  cbn [cmd_search_radius_deg cmd_search_pattern]. split.
  - intros u' Hu' Hz.
    assert (Eu : u = u') by (subst u; now rewrite Hu'). subst u'.
    rewrite (angular_uncertainty_nan self u Hz) in Hq. injection Hq as <-.
    split; reflexivity.
  - intros Hpos.
    assert (Hu : 0 < value u).
    { subst u. destruct (trk_uncertainty_m track) as [u0|] eqn:E.
      - now apply Hpos.
      - simpl. lra. }
    rewrite (angular_uncertainty_zero_range self u Hu) in Hq.
    injection Hq as <-. cbn [x_double x_clip]. f_equal.
    unfold np_clip, Rmin, Rmax.
    destruct (Rle_dec (90 * 2) (1 / 2)); [lra|].
    destruct (Rle_dec (90 * 2) (max_search_radius_deg self)); lra.
Qed.

Lemma turret_command_at_turret_witness :
  exists c,
    radar_track_to_turret_command turret "2026-01-11T00:00:00"%string
      {| trk_target_id := None;
         trk_latitude := Some 0; trk_longitude := Some 0;
         trk_altitude_m := Some 0;
         trk_uncertainty_m := Some (PyFloat 0) |} = Command c /\
    cmd_search_radius_deg c = NotNum /\
    cmd_search_pattern c = (Num 0, Num 0) :: repeat (NotNum, NotNum) 20.
Proof.
  destruct (turret_command_at_turret turret "2026-01-11T00:00:00"%string
              {| trk_target_id := None;
                 trk_latitude := Some 0; trk_longitude := Some 0;
                 trk_altitude_m := Some 0;
                 trk_uncertainty_m := Some (PyFloat 0) |}
              eq_refl eq_refl eq_refl) as (c & Hc & _ & Hnan & _).
  - simpl. lra.
  - exists c. split; [exact Hc|]. exact (Hnan (PyFloat 0) eq_refl eq_refl).
Defined.

(** X7.  [radar_track_to_turret_command] raises KeyError for the first of
    latitude, longitude and altitude_m that the track lacks, in this order.
    With the three keys present it raises no KeyError, and the division by
    the range never raises ZeroDivisionError.  A command that is returned
    carries the track's target id, or "UNKNOWN" when the track has none. *)
Theorem turret_command_errors (self : SlewToCueController)
    (now : String.string) (track : radar_track) :
  (trk_latitude track = None ->
     radar_track_to_turret_command self now track
       = RaisesKeyError "latitude"%string) /\
  (trk_latitude track <> None -> trk_longitude track = None ->
     radar_track_to_turret_command self now track
       = RaisesKeyError "longitude"%string) /\
  (trk_latitude track <> None -> trk_longitude track <> None ->
   trk_altitude_m track = None ->
     radar_track_to_turret_command self now track
       = RaisesKeyError "altitude_m"%string) /\
  (trk_latitude track <> None -> trk_longitude track <> None ->
   trk_altitude_m track <> None ->
     forall key,
       radar_track_to_turret_command self now track <> RaisesKeyError key) /\
  (forall c,
     radar_track_to_turret_command self now track = Command c ->
     cmd_target_id c = match trk_target_id track with
                       | Some id => id
                       | None => "UNKNOWN"%string
                       end) /\
  radar_track_to_turret_command self now track <> RaisesZeroDivision.
Proof.
  unfold radar_track_to_turret_command.
  destruct (trk_latitude track) as [lat|];
    [|repeat split; try congruence; intros; congruence].
  destruct (trk_longitude track) as [lon|];
    [|repeat split; try congruence; intros; congruence].
  destruct (trk_altitude_m track) as [alt|];
    [|repeat split; try congruence; intros; congruence].
  destruct (geodetic_to_aer self lat lon alt) as [[az el] rng].
  cbn [aer_to_turret_command].
  destruct (angular_uncertainty_numpy_returns self rng
              match trk_uncertainty_m track with
              | Some u => u
              | None => PyFloat 10
              end) as [q Hq].
  rewrite Hq.
  repeat split; try congruence; try discriminate.
  intros c Hc. injection Hc as <-. reflexivity.
Qed.

Lemma turret_command_errors_witness :
  radar_track_to_turret_command turret "2026-01-11T00:00:00"%string
    {| trk_target_id := None;
       trk_latitude := Some 1; trk_longitude := None;
       trk_altitude_m := Some 0; trk_uncertainty_m := None |}
  = RaisesKeyError "longitude"%string.
Proof.
  apply (proj1 (proj2 (turret_command_errors turret "2026-01-11T00:00:00"%string
    {| trk_target_id := None;
       trk_latitude := Some 1; trk_longitude := None;
       trk_altitude_m := Some 0; trk_uncertainty_m := None |})));
    [discriminate | reflexivity].
Defined.

(* ------------------------------------------------------------------ *)
(** ** The ends of the spiral, and a track due north *)











End SlewToCueFacts.

(* ================================================================== *)
(** * The normalisation of angles on binary64 floats *)
(* ================================================================== *)

Module SlewToCueBinary64Facts.

Import SlewToCueBinary64.
Import PrimFloat.
Local Open Scope float_scope.

(** The multiplier of [np.degrees], and what it makes of -1e-20 rad. *)
Lemma degrees_multiplier : 180.0 / np_pi = 57.29577951308232.
Proof. vm_compute. reflexivity. Qed.

Lemma degrees_tiny : np_degrees (-1e-20) = -5.729577951308232e-19.
Proof. vm_compute. reflexivity. Qed.

(** Adding 360.0 to that angle rounds to 360.0. *)
Lemma tiny_plus_360 : -5.729577951308232e-19 + 360.0 = 360.0.
Proof. vm_compute. reflexivity. Qed.

Lemma square_1e160 : square (PyFloat 1e160) = Raise OverflowError.
Proof. vm_compute. reflexivity. Qed.

(** C7.  [enu_to_aer] does not keep the azimuth below 360.  For an offset of
    -1e-20 m east, 1 m north and 0 m up, whether the arguments are Python
    floats or numpy float64, the angle [np.arctan2] returns is -1e-20 rad,
    that is -5.7e-19 degrees; it is negative, 360.0 is added, and the sum
    rounds to 360.0: the azimuth returned is exactly 360.0, which is not
    below 360. *)
Theorem enu_to_aer_azimuth_360
    (np_arctan2 : float -> float -> float) (east_m north_m up_m : scalar) :
  np_arctan2 (-1e-20) 1.0 = -1e-20 ->
  value east_m = -1e-20 -> value north_m = 1.0 -> value up_m = 0.0 ->
  exists azimuth_deg elevation_deg range_m,
    enu_to_aer np_arctan2 east_m north_m up_m
    = Ok (azimuth_deg, elevation_deg, range_m) /\
    azimuth_deg = 360.0 /\
    (azimuth_deg <? 360.0) = false.
Proof.
  intros Hatan He Hn Hu.
  unfold enu_to_aer. rewrite He, Hn, Hu, Hatan, degrees_tiny.
  exists 360.0.
  destruct east_m, north_m, up_m; cbn [value] in He, Hn, Hu; subst;
    eexists; eexists; (split; [vm_compute; reflexivity|]);
    split; reflexivity.
Qed.

Lemma enu_to_aer_azimuth_360_witness :
  exists azimuth_deg elevation_deg range_m,
    enu_to_aer arctan2_near_zero
      (NpFloat64 (-1e-20)) (NpFloat64 1.0) (PyFloat 0.0)
    = Ok (azimuth_deg, elevation_deg, range_m) /\
    azimuth_deg = 360.0 /\
    (azimuth_deg <? 360.0) = false.
Proof.
  apply (enu_to_aer_azimuth_360 arctan2_near_zero
           (NpFloat64 (-1e-20)) (NpFloat64 1.0) (PyFloat 0.0)
           eq_refl eq_refl eq_refl eq_refl).
Defined.

(** X27.  [enu_to_aer] has no guard against overflow.  An up offset of
    1e160 m held in a Python float (the altitude difference that
    [geodetic_to_enu] hands over is one) makes [up_m**2] raise
    OverflowError, whatever the other two offsets; the same offset held in
    a numpy float64, straight above the turret, gives an infinite range. *)
Theorem enu_to_aer_overflow (np_arctan2 : float -> float -> float) :
  (forall east_m north_m : scalar,
     enu_to_aer np_arctan2 east_m north_m (PyFloat 1e160)
     = Raise OverflowError) /\
  (exists azimuth_deg elevation_deg,
     enu_to_aer np_arctan2 (NpFloat64 0.0) (NpFloat64 0.0) (NpFloat64 1e160)
     = Ok (azimuth_deg, elevation_deg, infinity)).
Proof.
  split.
  - intros e n. unfold enu_to_aer. rewrite square_1e160.
    destruct (square e) as [e2 | []]; cbn [bind]; [|reflexivity].
    destruct (square n) as [n2 | []]; reflexivity.
  - unfold enu_to_aer. cbn [square bind value plus].
    eexists. eexists. vm_compute. reflexivity.
Qed.

(** C10.  [generate_spiral_search_pattern] does not keep the pan of the
    points after the first below 360.  For the centre (-1e-20, 0.0), the
    default radius 2.0 and the default of 20 points, the first point is the
    centre as given, and the point after it is the first sample of the
    spiral: its radius is 0.0, so its pan is -1e-20 % 360, and the remainder
    that [fmod] returns, -1e-20, moved by 360 rounds to 360.0.  The second
    point of the pattern has pan exactly 360.0, which is not below 360. *)
Theorem spiral_pan_360
    (np_cos np_sin : float -> float) (fmod : float -> float -> float) :
  np_cos 0.0 = 1.0 -> np_sin 0.0 = 0.0 -> fmod (-1e-20) 360.0 = -1e-20 ->
  let pattern :=
    generate_spiral_search_pattern np_cos np_sin fmod (-1e-20) 0.0 2.0 20 in
  length pattern = 21%nat /\
  nth 0 pattern (0.0, 0.0) = (-1e-20, 0.0) /\
  nth 1 pattern (0.0, 0.0) = (360.0, 0.0) /\
  (fst (nth 1 pattern (0.0, 0.0)) <? 360.0) = false.
Proof.
  intros Hcos Hsin Hfmod pattern.
  assert (Hsecond : nth 1 pattern (0.0, 0.0) = (360.0, 0.0)).
  { subst pattern.
    cbn [nth generate_spiral_search_pattern map combine]. cbv.
    rewrite Hcos, Hsin. vm_compute. rewrite Hfmod. vm_compute. reflexivity. }
  split; [reflexivity|]. split; [reflexivity|]. split; [exact Hsecond|].
  rewrite Hsecond. reflexivity.
Qed.

Lemma spiral_pan_360_witness :
  nth 1 (generate_spiral_search_pattern cos_at_zero sin_at_zero
           fmod_below_modulus (-1e-20) 0.0 2.0 20) (0.0, 0.0)
  = (360.0, 0.0).
Proof.
  apply (spiral_pan_360 cos_at_zero sin_at_zero fmod_below_modulus
           eq_refl eq_refl eq_refl).
Defined.

End SlewToCueBinary64Facts.

(* ================================================================== *)
(** * Properties of the fusion pipeline *)
(* ================================================================== *)

Module FusionFacts.

Import Fusion.
Local Open Scope Z_scope.

(** ** The action follows the label *)

(** The action and the label of a classification go together. *)
Lemma fusion_action_labels (sim : Polarimetry.PolarimetrySimulator)
    (d : list (list Q)) (t b : list (list bool))
    (r : Polarimetry.classification_result) :
  Polarimetry.classify_target sim d t b = Polarimetry.Ok r ->
  (_get_fusion_action r = TRACK_AS_DRONE <->
     Polarimetry.classification r = Polarimetry.DRONE) /\
  (_get_fusion_action r = DISCARD_AS_BIOLOGICAL <->
     Polarimetry.classification r = Polarimetry.BIRD) /\
  (_get_fusion_action r = DEFER_TO_RADAR <->
     Polarimetry.classification r = Polarimetry.UNKNOWN).
Proof.
  intros Hr. unfold Polarimetry.classify_target in Hr.
  destruct (Polarimetry.masked_select d t) as [vt|e]; simpl in Hr; [|discriminate].
  destruct (Polarimetry.masked_select d b) as [vb|e]; simpl in Hr; [|discriminate].
  destruct (Polarimetry.contrast_of (Polarimetry.np_mean vt)
              (Polarimetry.np_mean vb)) as [c|e]; simpl in Hr; [|discriminate].
  pose proof (PolarimetryFacts.decision_tree_in_six sim c
                (Polarimetry.np_mean vt)) as Hin.
  destruct (Polarimetry.decision_tree sim c (Polarimetry.np_mean vt))
    as [[cls conf] v].
  injection Hr as <-. unfold _get_fusion_action.
  cbn [Polarimetry.veto_decision Polarimetry.classification].
  simpl in Hin.
  repeat match goal with
  | H : _ \/ _ |- _ => destruct H as [H|H]
  | H : (_, _, _) = (_, _, _) |- _ => injection H as <- <- <-
  | H : False |- _ => destruct H
  end; repeat split; intros; first [reflexivity | discriminate].
Qed.

(** X18.  The action attached to a classification follows its label: for
    every result of [classify_target] the action is TRACK_AS_DRONE exactly
    for DRONE, DISCARD_AS_BIOLOGICAL exactly for BIRD and DEFER_TO_RADAR
    exactly for UNKNOWN. *)
Theorem fusion_action_follows_label (sim : Polarimetry.PolarimetrySimulator)
    (d : list (list Q)) (t b : list (list bool))
    (r : Polarimetry.classification_result) :
  Polarimetry.classify_target sim d t b = Polarimetry.Ok r ->
  (_get_fusion_action r = TRACK_AS_DRONE <->
     Polarimetry.classification r = Polarimetry.DRONE) /\
  (_get_fusion_action r = DISCARD_AS_BIOLOGICAL <->
     Polarimetry.classification r = Polarimetry.BIRD) /\
  (_get_fusion_action r = DEFER_TO_RADAR <->
     Polarimetry.classification r = Polarimetry.UNKNOWN).
Proof. exact (fusion_action_labels sim d t b r). Qed.

Lemma fusion_action_follows_label_witness :
  _get_fusion_action
    {| Polarimetry.classification := Polarimetry.DRONE;
       Polarimetry.confidence := Polarimetry.MEDIUM;
       Polarimetry.veto_decision := Polarimetry.CONFIRM;
       Polarimetry.metrics :=
         {| Polarimetry.dolp_target_pct :=
              Polarimetry.fmul (Polarimetry.np_mean [9 # 100])
                (Polarimetry.FNum 100);
            Polarimetry.dolp_background_pct :=
              Polarimetry.fmul (Polarimetry.np_mean [3 # 100])
                (Polarimetry.FNum 100);
            Polarimetry.contrast_ratio :=
              Polarimetry.FNum
                ((((9 # 100) + 0) / 1) / (((3 # 100) + 0) / 1))%Q |} |}
  = TRACK_AS_DRONE.
Proof.
  apply (fusion_action_follows_label Polarimetry.simulator
           (Polarimetry.scene (9 # 100) (3 # 100))
           Polarimetry.target_px Polarimetry.background_px _ eq_refl).
  reflexivity.
Defined.

(** ** Shapes along the pipeline *)

Lemma map_const_seq {X : Type} (x : X) (n start : nat) :
  map (fun _ => x) (seq start n) = repeat x n.
Proof.
  revert start. induction n as [|n IH]; intros start; simpl;
    [reflexivity | now rewrite IH].
Qed.

Lemma rows_of_lengths {X : Type} (a : RoiGating.ndarray X) :
  map (@length X) (rows_of a)
  = repeat (RoiGating.width a) (RoiGating.height a).
Proof.
  unfold rows_of. rewrite map_map.
  rewrite (map_ext _ (fun _ => RoiGating.width a)).
  - apply map_const_seq.
  - intros i. now rewrite length_map, length_seq.
Qed.

Lemma same_shape2_spec {X Y : Type}
    (a : RoiGating.ndarray X) (b : RoiGating.ndarray Y) :
  same_shape2 a b = true <->
  RoiGating.height a = RoiGating.height b /\
  RoiGating.width a = RoiGating.width b.
Proof.
  unfold same_shape2. now rewrite andb_true_iff, !Nat.eqb_eq.
Qed.

Lemma rows_same_shape (a : RoiGating.ndarray Q) (m : RoiGating.ndarray bool) :
  same_shape2 a m = true -> Polarimetry.same_shape (rows_of a) (rows_of m).
Proof.
  intros H. apply same_shape2_spec in H as [Hh Hw].
  unfold Polarimetry.same_shape. rewrite !rows_of_lengths. now rewrite Hh, Hw.
Qed.

(** With masks of the shape of the map the classifier returns. *)
Lemma classify_arrays_returns (sim : Polarimetry.PolarimetrySimulator)
    (a : RoiGating.ndarray Q) (t b : RoiGating.ndarray bool) :
  same_shape2 a t = true -> same_shape2 a b = true ->
  exists r,
    classify_arrays sim a t b = Ok r /\
    Polarimetry.classify_target sim (rows_of a) (rows_of t) (rows_of b)
    = Polarimetry.Ok r.
Proof.
  intros Ht Hb. unfold classify_arrays. rewrite Ht, Hb. cbn [andb].
  destruct (PolarimetryFacts.classify_target_total sim (rows_of a) (rows_of t)
              (rows_of b) (rows_same_shape a t Ht) (rows_same_shape a b Hb))
    as (vt & vb & c & r & _ & _ & _ & Hr & _).
  exists r. rewrite Hr. split; reflexivity.
Qed.

Lemma same_shape2_invert {X : Type} (a : RoiGating.ndarray X)
    (m : RoiGating.ndarray bool) :
  same_shape2 a (invert m) = same_shape2 a m.
Proof. reflexivity. Qed.

(** The shape of a crop depends on the shape of the image only. *)
Lemma crop_shape_of_shape {X Y : Type} (zx : X) (zy : Y)
    (self : RoiGating.ROIGatingModule)
    (a : RoiGating.ndarray X) (b : RoiGating.ndarray Y)
    (cx cy : Z) (roi_size : option Z) :
  same_shape2 a b = true ->
  same_shape2 (fst (RoiGating.extract_roi zx self a cx cy roi_size))
              (fst (RoiGating.extract_roi zy self b cx cy roi_size)) = true.
Proof.
  intros H. apply same_shape2_spec in H as [Hh Hw]. apply same_shape2_spec.
  unfold RoiGating.extract_roi, RoiGating.shape2. rewrite Hh, Hw.
  cbn [fst].
  match goal with
  | |- context [if ?g then _ else _] => destruct g
  end; unfold RoiGating.np_pad, RoiGating.slice2;
    cbn [RoiGating.height RoiGating.width]; rewrite ?Hh, ?Hw; split; reflexivity.
Qed.

(** The crop of a window that meets the image is [2 * (size // 2)] wide
    and high. *)
Lemma crop_shape_window {X : Type} (zero : X)
    (self : RoiGating.ROIGatingModule) (img : RoiGating.ndarray X)
    (cx cy size : Z) :
  0 <= size ->
  - (size / 2) <= cx <= Z.of_nat (RoiGating.width img) + size / 2 ->
  - (size / 2) <= cy <= Z.of_nat (RoiGating.height img) + size / 2 ->
  RoiGating.height (fst (RoiGating.extract_roi zero self img cx cy (Some size)))
    = Z.to_nat (2 * (size / 2)) /\
  RoiGating.width (fst (RoiGating.extract_roi zero self img cx cy (Some size)))
    = Z.to_nat (2 * (size / 2)).
Proof.
  intros Hs Hx Hy.
  assert (Hhf : 0 <= size / 2) by (apply Z.div_pos; lia).
  set (hf := size / 2) in *.
  unfold RoiGating.extract_roi, RoiGating.shape2.
  cbn [fst RoiGating.pad_top RoiGating.pad_bottom RoiGating.pad_left
       RoiGating.pad_right].
  fold hf.
  set (H := Z.of_nat (RoiGating.height img)).
  set (W := Z.of_nat (RoiGating.width img)).
  assert (HH : 0 <= H) by (subst H; lia).
  assert (HW : 0 <= W) by (subst W; lia).
  pose proof (RoiGatingFacts.axis_restored (cx - hf) (cx + hf) W) as Ax.
  pose proof (RoiGatingFacts.axis_restored (cy - hf) (cy + hf) H) as Ay.
  assert (Sy : 0 <= RoiGating.slice_len (Z.max 0 (cy - hf)) (Z.min H (cy + hf)) H)
    by (unfold RoiGating.slice_len; lia).
  assert (Sx : 0 <= RoiGating.slice_len (Z.max 0 (cx - hf)) (Z.min W (cx + hf)) W)
    by (unfold RoiGating.slice_len; lia).
  destruct ((cx - hf <? 0) || (cx + hf >? W) || (cy - hf <? 0) || (cy + hf >? H))
    eqn:Epad; unfold RoiGating.np_pad, RoiGating.slice2;
    cbn [RoiGating.height RoiGating.width]; fold H W.
  - rewrite !Z2Nat.id by lia. split; f_equal; lia.
  - apply orb_false_elim in Epad as [Epad E4].
    apply orb_false_elim in Epad as [Epad E3].
    apply orb_false_elim in Epad as [E1 E2].
    apply Z.ltb_ge in E1, E3.
    rewrite Z.gtb_ltb in E2, E4. apply Z.ltb_ge in E2, E4.
    rewrite (RoiGatingFacts.axis_inside (cx - hf) (cx + hf) W) by lia.
    rewrite (RoiGatingFacts.axis_inside (cy - hf) (cy + hf) H) by lia.
    split; f_equal; lia.
Qed.

(** ** The pipeline on a given image *)

Section Pipeline.

Variable synthetic_scene :
  Z * Z -> bool -> Z * Z -> RoiGating.ndarray Q * RoiGating.ndarray bool.
Variable mentions_bird : String.string -> bool.

(** X19.  On a given image, with an even ROI size whose window (around the
    parallax-corrected pixel) meets the image, the pipeline returns: it
    reports the corrected pixel and the metadata of [extract_roi], its
    classification is that of the crop under the central mask and its
    complement, and its decision repeats the classification, the action
    being TRACK_AS_DRONE exactly for DRONE and DISCARD_AS_BIOLOGICAL exactly
    for BIRD. *)
Theorem fusion_on_image (self : ThermalPolarimetricFusion)
    (data : thermal_data) (img : RoiGating.ndarray Q) (roi_size : Z)
    (target : thermal_target) (rest : list thermal_target)
    (target_id : String.string) (u v : Z) :
  targets data = Some (target :: rest) ->
  tgt_centroid target = Some (u, v) ->
  tgt_target_id target = Some target_id ->
  0 <= roi_size -> roi_size mod 2 = 0 ->
  let pu := u + RoiGating.dx (roi_gater self) in
  let pv := v + RoiGating.dy (roi_gater self) in
  - (roi_size / 2) <= pu <= Z.of_nat (RoiGating.width img) + roi_size / 2 ->
  - (roi_size / 2) <= pv <= Z.of_nat (RoiGating.height img) + roi_size / 2 ->
  exists res,
    process_thermal_detection synthetic_scene mentions_bird self data (Some img) roi_size = Ok res /\
    fr_target_id res = target_id /\
    fr_polarimetric_frame res = (pu, pv) /\
    fr_roi_extraction res
      = snd (RoiGating.extract_roi 0%Q (roi_gater self) img pu pv (Some roi_size)) /\
    classify_arrays (polarimetry_sim self)
      (fst (RoiGating.extract_roi 0%Q (roi_gater self) img pu pv (Some roi_size)))
      (center_mask roi_size) (invert (center_mask roi_size))
      = Ok (fr_polarimetric_classification res) /\
    material_type (fr_fusion_decision res)
      = Polarimetry.classification (fr_polarimetric_classification res) /\
    decision_veto (fr_fusion_decision res)
      = Polarimetry.veto_decision (fr_polarimetric_classification res) /\
    (action (fr_fusion_decision res) = TRACK_AS_DRONE <->
       material_type (fr_fusion_decision res) = Polarimetry.DRONE) /\
    (action (fr_fusion_decision res) = DISCARD_AS_BIOLOGICAL <->
       material_type (fr_fusion_decision res) = Polarimetry.BIRD).
Proof.
  intros Htg Hc Hid Hs Hev pu pv Hx Hy.
  assert (Hsz : roi_size = 2 * (roi_size / 2))
    by (pose proof (Z.div_mod roi_size 2); lia).
  destruct (crop_shape_window 0%Q (roi_gater self) img pu pv roi_size Hs Hx Hy)
    as [Hh Hw].
  rewrite <- Hsz in Hh, Hw.
  assert (Hshape : same_shape2
            (fst (RoiGating.extract_roi 0%Q (roi_gater self) img pu pv
                    (Some roi_size))) (center_mask roi_size) = true).
  { apply same_shape2_spec. split; assumption. }
  destruct (classify_arrays_returns (polarimetry_sim self) _ _
              (invert (center_mask roi_size)) Hshape Hshape) as (r & Hr & Hrows).
  unfold process_thermal_detection. rewrite Htg, Hc, Hid.
  cbn [RoiGating.apply_parallax_correction]. fold pu pv.
  destruct (RoiGating.extract_roi 0%Q (roi_gater self) img pu pv (Some roi_size))
    as [roi md] eqn:Eroi.
  cbn [fst snd] in *.
  assert (Hneg : (roi_size <? 0) = false) by (apply Z.ltb_ge; lia).
  rewrite Hneg. cbn [bind fst snd]. rewrite Hr. cbn [bind].
  eexists. split; [reflexivity|].
  cbn [fr_target_id fr_polarimetric_frame fr_roi_extraction
       fr_polarimetric_classification fr_fusion_decision material_type
       decision_veto action].
  repeat (split; [reflexivity|]).
  destruct (fusion_action_labels _ _ _ _ _ Hrows) as (Hd & Hb & _).
  split; assumption.
Qed.

(** X20.  On a given image an odd ROI size breaks the pipeline: the crop
    is one pixel short of the central mask on both axes, and the
    classification raises IndexError. *)
Theorem fusion_odd_roi_fails (self : ThermalPolarimetricFusion)
    (data : thermal_data) (img : RoiGating.ndarray Q) (roi_size : Z)
    (target : thermal_target) (rest : list thermal_target)
    (target_id : String.string) (u v : Z) :
  targets data = Some (target :: rest) ->
  tgt_centroid target = Some (u, v) ->
  tgt_target_id target = Some target_id ->
  0 < roi_size -> roi_size mod 2 = 1 ->
  let pu := u + RoiGating.dx (roi_gater self) in
  let pv := v + RoiGating.dy (roi_gater self) in
  - (roi_size / 2) <= pu <= Z.of_nat (RoiGating.width img) + roi_size / 2 ->
  - (roi_size / 2) <= pv <= Z.of_nat (RoiGating.height img) + roi_size / 2 ->
  process_thermal_detection synthetic_scene mentions_bird self data (Some img) roi_size = Raise IndexError.
Proof.
  intros Htg Hc Hid Hs Hodd pu pv Hx Hy.
  assert (Hsz : roi_size = 2 * (roi_size / 2) + 1)
    by (pose proof (Z.div_mod roi_size 2); lia).
  destruct (crop_shape_window 0%Q (roi_gater self) img pu pv roi_size
              ltac:(lia) Hx Hy) as [Hh Hw].
  assert (Hshape : same_shape2
            (fst (RoiGating.extract_roi 0%Q (roi_gater self) img pu pv
                    (Some roi_size))) (center_mask roi_size) = false).
  { apply not_true_is_false. intros E. apply same_shape2_spec in E as [E _].
    rewrite Hh in E. cbn [center_mask RoiGating.height] in E.
    apply (f_equal Z.of_nat) in E. rewrite !Z2Nat.id in E by lia. lia. }
  unfold process_thermal_detection. rewrite Htg, Hc, Hid.
  cbn [RoiGating.apply_parallax_correction]. fold pu pv.
  destruct (RoiGating.extract_roi 0%Q (roi_gater self) img pu pv (Some roi_size))
    as [roi md] eqn:Eroi.
  cbn [fst snd] in *.
  assert (Hneg : (roi_size <? 0) = false) by (apply Z.ltb_ge; lia).
  rewrite Hneg. cbn [bind fst snd].
  unfold classify_arrays. rewrite Hshape. reflexivity.
Qed.

(** X21.  What the pipeline refuses before it looks at any pixel: a
    detection without targets (ValueError), a first target without centroid
    or without target id (KeyError), and, on a given image, a negative ROI
    size (ValueError, from the allocation of the mask). *)
Theorem fusion_input_errors (self : ThermalPolarimetricFusion)
    (data : thermal_data) (image : option (RoiGating.ndarray Q))
    (roi_size : Z) :
  (targets data = None \/ targets data = Some [] ->
     process_thermal_detection synthetic_scene mentions_bird self data image roi_size = Raise ValueError) /\
  (forall target rest,
     targets data = Some (target :: rest) -> tgt_centroid target = None ->
     process_thermal_detection synthetic_scene mentions_bird self data image roi_size = Raise (KeyError "centroid"%string)) /\
  (forall target rest,
     targets data = Some (target :: rest) -> tgt_centroid target <> None ->
     tgt_target_id target = None ->
     process_thermal_detection synthetic_scene mentions_bird self data image roi_size = Raise (KeyError "target_id"%string)) /\
  (forall target rest,
     targets data = Some (target :: rest) -> tgt_centroid target <> None ->
     tgt_target_id target <> None -> image <> None -> roi_size < 0 ->
     process_thermal_detection synthetic_scene mentions_bird self data image roi_size = Raise ValueError).
Proof.
  unfold process_thermal_detection.
  split; [|split; [|split]].
  - intros [-> | ->]; reflexivity.
  - intros target rest -> ->. reflexivity.
  - intros target rest -> Hc ->.
    destruct (tgt_centroid target) as [[u v]|]; [reflexivity | congruence].
  - intros target rest -> Hc Hid Himg Hneg.
    destruct (tgt_centroid target) as [[u v]|]; [|congruence].
    destruct (tgt_target_id target) as [tid|]; [|congruence].
    destruct image as [img|]; [|congruence].
    cbn [RoiGating.apply_parallax_correction].
    destruct (RoiGating.extract_roi _ _ _ _ _ _) as [roi md].
    apply Z.ltb_lt in Hneg. rewrite Hneg. reflexivity.
Qed.

(** X22.  With a generated scene the pipeline cannot fail on shapes: the
    map and the target mask are cropped with the same centre and size, so
    whatever the centroid and the ROI size (odd, or with a window off the
    image), if the generator returns a map and a mask of one shape the
    pipeline returns a result, whose action follows its label. *)
Theorem fusion_on_generated_scene (self : ThermalPolarimetricFusion)
    (data : thermal_data) (roi_size : Z)
    (target : thermal_target) (rest : list thermal_target)
    (target_id : String.string) (u v : Z) :
  (forall resolution is_bird center,
     same_shape2 (fst (synthetic_scene resolution is_bird center))
                 (snd (synthetic_scene resolution is_bird center)) = true) ->
  targets data = Some (target :: rest) ->
  tgt_centroid target = Some (u, v) ->
  tgt_target_id target = Some target_id ->
  exists res,
    process_thermal_detection synthetic_scene mentions_bird self data None roi_size = Ok res /\
    (action (fr_fusion_decision res) = TRACK_AS_DRONE <->
       material_type (fr_fusion_decision res) = Polarimetry.DRONE) /\
    (action (fr_fusion_decision res) = DISCARD_AS_BIOLOGICAL <->
       material_type (fr_fusion_decision res) = Polarimetry.BIRD) /\
    (action (fr_fusion_decision res) = DEFER_TO_RADAR <->
       material_type (fr_fusion_decision res) = Polarimetry.UNKNOWN).
Proof.
  intros Hscene Htg Hc Hid.
  unfold process_thermal_detection. rewrite Htg, Hc, Hid.
  cbn [RoiGating.apply_parallax_correction].
  set (pu := u + RoiGating.dx (roi_gater self)).
  set (pv := v + RoiGating.dy (roi_gater self)).
  set (is_bird := match tgt_classification target with
                  | Some c => mentions_bird c
                  | None => false
                  end).
  specialize (Hscene (RoiGating.full_resolution (roi_gater self)) is_bird
                (pu, pv)).
  destruct (synthetic_scene (RoiGating.full_resolution (roi_gater self))
              is_bird (pu, pv)) as [dolp mask].
  cbn [fst snd] in Hscene.
  pose proof (crop_shape_of_shape 0%Q false (roi_gater self) dolp mask pu pv
                (Some roi_size) Hscene) as Hcrop.
  destruct (RoiGating.extract_roi 0%Q (roi_gater self) dolp pu pv (Some roi_size))
    as [roi md].
  destruct (RoiGating.extract_roi false (roi_gater self) mask pu pv
              (Some roi_size)) as [roi_mask md'].
  cbn [fst snd bind] in *.
  destruct (classify_arrays_returns (polarimetry_sim self) roi roi_mask
              (invert roi_mask) Hcrop Hcrop) as (r & Hr & Hrows).
  rewrite Hr. cbn [bind]. eexists. split; [reflexivity|].
  cbn [fr_fusion_decision material_type action].
  exact (fusion_action_labels _ _ _ _ _ Hrows).
Qed.

End Pipeline.

(** ** The central mask *)

(** X23.  The central mask is central only from size 80 on.  For
    [roi_size >= 80] it is the square of side 80 around [roi_size // 2].
    For a smaller size the lower bound [roi_size // 2 - 40] is negative and
    counts from the end: the mask is then the square from index
    [max 0 (roi_size // 2 - 40 + roi_size)] to the last, in the bottom
    right corner. *)
Theorem center_mask_extent (roi_size i j : Z) :
  0 <= i < roi_size -> 0 <= j < roi_size ->
  let center := roi_size / 2 in
  (80 <= roi_size ->
     (RoiGating.at_ (center_mask roi_size) i j = true <->
        center - 40 <= i < center + 40 /\ center - 40 <= j < center + 40)) /\
  (roi_size < 80 ->
     (RoiGating.at_ (center_mask roi_size) i j = true <->
        Z.max 0 (center - 40 + roi_size) <= i /\
        Z.max 0 (center - 40 + roi_size) <= j)).
Proof.
  intros Hi Hj center.
  assert (Hc : 2 * center <= roi_size < 2 * center + 2).
  { subst center. pose proof (Z.div_mod roi_size 2 ltac:(lia)).
    pose proof (Z.mod_pos_bound roi_size 2 ltac:(lia)). lia. }
  unfold center_mask. cbn [RoiGating.at_]. fold center.
  unfold in_slice, RoiGating.slice_start, RoiGating.slice_len,
    RoiGating.slice_bound.
  rewrite !andb_true_iff, !Z.leb_le, !Z.ltb_lt.
  split; intros Hsize.
  - destruct (Z.ltb_spec (center - 40) 0); [lia|].
    destruct (Z.ltb_spec (center + 40) 0); lia.
  - destruct (Z.ltb_spec (center - 40) 0); [|lia].
    destruct (Z.ltb_spec (center + 40) 0); lia.
Qed.

Lemma center_mask_extent_witness :
  RoiGating.at_ (center_mask 60) 55 55 = true /\
  RoiGating.at_ (center_mask 60) 30 30 = false.
Proof.
  split.
  - apply (proj2 (center_mask_extent 60 55 55 ltac:(lia) ltac:(lia))); [lia|].
    vm_compute. split; discriminate.
  - apply not_true_is_false. intros E.
    apply (proj2 (center_mask_extent 60 30 30 ltac:(lia) ltac:(lia))) in E;
      [|lia].
    vm_compute in E. destruct E as [E _]. now apply E.
Defined.

Lemma fusion_on_image_witness :
  exists res,
    process_thermal_detection flat_scene no_bird pipeline (detection_at 2 2)
      (Some (flat_map (9 # 100))) 2 = Ok res /\
    fr_polarimetric_frame res = (2, 2).
Proof.
  destruct (fusion_on_image flat_scene no_bird pipeline (detection_at 2 2)
              (flat_map (9 # 100)) 2 _ _ _ 2 2 eq_refl eq_refl eq_refl)
    as (res & Hres & _ & Hframe & _);
    try first [reflexivity | lia | (cbn; lia)].
  exists res. split; assumption.
Defined.

Lemma fusion_odd_roi_fails_witness :
  process_thermal_detection flat_scene no_bird pipeline (detection_at 2 2)
    (Some (flat_map (9 # 100))) 3 = Raise IndexError.
Proof.
  apply (fusion_odd_roi_fails flat_scene no_bird pipeline (detection_at 2 2)
           (flat_map (9 # 100)) 3 _ _ _ 2 2 eq_refl eq_refl eq_refl);
    first [reflexivity | lia | (cbn; lia)].
Defined.

Lemma fusion_input_errors_witness :
  process_thermal_detection flat_scene no_bird pipeline
    {| targets := Some [] |} None 256 = Raise ValueError.
Proof.
  apply (proj1 (fusion_input_errors flat_scene no_bird pipeline
                  {| targets := Some [] |} None 256)).
  right. reflexivity.
Defined.

Lemma fusion_on_generated_scene_witness :
  exists res,
    process_thermal_detection flat_scene no_bird pipeline (detection_at 100 100)
      None 3 = Ok res.
Proof.
  destruct (fusion_on_generated_scene flat_scene no_bird pipeline
              (detection_at 100 100) 3 _ _ _ 100 100
              (fun _ _ _ => eq_refl) eq_refl eq_refl eq_refl)
    as (res & Hres & _).
  exists res. exact Hres.
Defined.

End FusionFacts.
